(** * Subscription orchestration service of the Stripe-subscription plugin

    A shallow embedding of [StripeSubscriptionService]
    (packages/vendure-plugin-stripe-subscription/src/api-v2/stripe-subscription.service.ts).

    The service is glue between the commerce framework, its job queue and the
    billing provider.  Every method is embedded as a computation in a small
    state-and-exception monad over a [World]: the persistent stores the
    service reads and writes (payment methods, orders, audit history, job
    queue, log) together with the chronological [trace] of every call made
    to a collaborator.  What a collaborator answers, and whether it rejects,
    is decided by an environment [Env] that may look at the whole trace so far.
    An exception leaves the world as it was at the throw: nothing is rolled
    back, exactly as in the source. *)

From Stdlib Require Import String Ascii List ZArith Bool Arith Lia Permutation.
Import ListNotations.
Local Open Scope list_scope.

(* ================================================================== *)
(** ** Data model *)
(* ================================================================== *)

(** [ID = string | number] in the framework.  Within one deployment all
    entity ids have one representation (the entity-id strategy), on which the
    source's loose equality [==] is plain equality; ids are strings here. *)
Definition ID := string.
Bind Scope string_scope with ID.

Definition id_eqb (a b : ID) : bool := String.eqb a b.

(** JavaScript truthiness of a string: only the empty string is falsy. *)
Definition truthy (s : string) : bool := negb (String.eqb s "").

(** Truthiness of [string | undefined]. *)
Definition truthy_opt (s : option string) : bool :=
  match s with
  | Some v => truthy v
  | None => false
  end.

(** Values that are thrown or that reject a promise. *)
Inductive JsError : Type :=
| UserInputError (message : string)
| Error (message : string)
| ForeignError (name message : string).

Definition error_name (e : JsError) : string :=
  match e with
  | UserInputError _ => "UserInputError"
  | Error _ => "Error"
  | ForeignError n _ => n
  end.

Definition error_message (e : JsError) : string :=
  match e with
  | UserInputError m | Error m | ForeignError _ m => m
  end.

(** [`${error}`]: the framework's [UserInputError] prints as its bare
    message, any other error as its name, a colon and its message. *)
Definition error_toString (e : JsError) : string :=
  match e with
  | UserInputError m => m
  | Error m => ("Error: " ++ m)%string
  | ForeignError n m => (n ++ ": " ++ m)%string
  end.

(** The [error?: unknown] argument of [logHistoryEntry]: callers pass a
    caught error or a plain string. *)
Inductive ErrorValue : Type :=
| ErrObject (e : JsError)
| ErrString (s : string).

Definition errorValue_truthy (v : ErrorValue) : bool :=
  match v with
  | ErrObject _ => true
  | ErrString s => truthy s
  end.

Record Channel : Type := { token : string }.

Record RequestContext : Type := {
  channel : Channel;
  (** the session's active order, if any *)
  activeOrderId : option ID
}.

(** The framework promises a lossless round trip of the request context. *)
Definition SerializedRequestContext := RequestContext.
Definition serialize (ctx : RequestContext) : SerializedRequestContext := ctx.
Definition deserialize (s : SerializedRequestContext) : RequestContext := s.

Record ConfigArg : Type := { arg_name : string; arg_value : string }.

Record ConfigurableOperation : Type := {
  handler_code : string;
  handler_args : list ConfigArg
}.

Record PaymentMethod : Type := {
  pm_code : string;
  pm_enabled : bool;
  pm_channels : list string;
  pm_handler : ConfigurableOperation
}.

Record StripeClient : Type := { webhookSecret : string; apiKey : string }.

Record StripeContext : Type := {
  paymentMethod : PaymentMethod;
  stripeClient : StripeClient
}.

Record ProductVariant : Type := {
  pv_id : ID;
  (** [customFields.subscriptionSchedule] *)
  subscriptionSchedule : option ID
}.

Record OrderLine : Type := {
  ol_id : ID;
  productVariant : ProductVariant;
  (** [customFields.subscriptionHash] *)
  subscriptionHash : option string;
  (** [customFields.subscriptionIds] *)
  subscriptionIds : option (list string)
}.

Record Customer : Type := {
  c_id : ID;
  emailAddress : string;
  (** [customFields.stripeSubscriptionCustomerId] *)
  stripeSubscriptionCustomerId : option string
}.

Record SurchargeInput : Type := {
  description : string;
  listPrice : Z;
  listPriceIncludesTax : bool
}.

Record PaymentInput : Type := {
  method : string;
  meta_setupIntentId : string;
  meta_amount : Z
}.

Record Order : Type := {
  o_id : ID;
  o_code : string;
  o_active : bool;
  o_state : string;
  totalWithTax : Z;
  currencyCode : string;
  lines : list OrderLine;
  customer : option Customer;
  shippingLines : list ID;
  surcharges : list SurchargeInput;
  payments : list PaymentInput
}.

Record StripeSubscriptionPricing : Type := {
  totalProratedAmount : Z;
  downpayment : Z;
  recurringPrice : Z;
  amountDueNow : Z;
  dayRate : Z
}.

(** The pricing snapshot of an audit entry: the money fields as text. *)
Record PrettyPricing : Type := {
  pp_totalProratedAmount : string;
  pp_downpayment : string;
  pp_recurringPrice : string;
  pp_amountDueNow : string;
  pp_dayRate : string
}.

(** An audit entry, of type [STRIPE_SUBSCRIPTION_NOTIFICATION]. *)
Record HistoryEntry : Type := {
  h_orderId : ID;
  h_message : string;
  h_valid : bool;
  h_error : option ErrorValue;
  h_subscriptionId : option string;
  h_pricing : option PrettyPricing
}.

(** [JobData = CreateSubscriptionsJob | CancelSubscriptionsJob], tagged by
    its [action]. *)
Inductive JobData : Type :=
| CreateSubscriptionsJob (ctx : SerializedRequestContext)
    (orderCode stripeCustomerId stripePaymentMethodId : string)
| CancelSubscriptionsJob (ctx : SerializedRequestContext) (orderLineId : ID).

Definition action (d : JobData) : string :=
  match d with
  | CreateSubscriptionsJob _ _ _ _ => "createSubscriptionsForOrder"
  | CancelSubscriptionsJob _ _ => "cancelSubscriptionsForOrderline"
  end.

Definition job_ctx (d : JobData) : SerializedRequestContext :=
  match d with
  | CreateSubscriptionsJob c _ _ _ | CancelSubscriptionsJob c _ => c
  end.

(** A job as the queue holds it: payload and the [retries] option given to
    [jobQueue.add], when one was given. *)
Record QueuedJob : Type := {
  q_data : JobData;
  q_retries : option nat
}.

Record PaymentIntentParams : Type := {
  pi_customer : string;
  pi_payment_method_types : list string;
  pi_setup_future_usage : string;
  pi_amount : Z;
  pi_currency : string;
  pi_meta_orderCode : string;
  pi_meta_channelToken : string;
  pi_meta_amount : Z
}.

(** The provider's answer to [paymentIntents.create]. *)
Record PaymentIntent : Type := {
  intent_id : string;
  client_secret : option string
}.

(** The webhook payload of a succeeded payment intent. *)
Record StripePaymentIntent : Type := {
  spi_id : string;
  spi_customer : option string;
  spi_payment_method : string;
  spi_meta_amount : Z
}.

Record PaymentMethodQuote : Type := {
  quote_code : string;
  isEligible : bool
}.

Record OrderStateTransitionError : Type := {
  fromState : string;
  toState : string;
  transition_message : string
}.

Record ErrorResult : Type := {
  errorCode : string;
  result_message : string
}.

Inductive StripeSubscriptionIntentType : Type :=
| PaymentIntentType
| SetupIntent.

Definition intentType_toString (t : StripeSubscriptionIntentType) : string :=
  match t with
  | PaymentIntentType => "PaymentIntent"
  | SetupIntent => "SetupIntent"
  end.

Record StripeSubscriptionIntent : Type := {
  clientSecret : string;
  intentType : StripeSubscriptionIntentType
}.

Inductive StockMovementType : Type :=
| ADJUSTMENT | ALLOCATION | RELEASE | SALE | CANCELLATION | RETURN.

(** A [Cancellation] or [Release] stock movement. *)
Record StockMovement : Type := {
  sm_id : ID;
  sm_orderLine : OrderLine
}.

Record StockMovementEvent : Type := {
  sme_ctx : RequestContext;
  sme_type : StockMovementType;
  stockMovements : list StockMovement
}.

Inductive OrderLineEventType : Type :=
| created | updated | deleted | cancelled.

Record OrderLineEvent : Type := {
  ole_ctx : RequestContext;
  ole_type : OrderLineEventType;
  ole_orderLine : OrderLine
}.

Inductive LogLevel : Type := LogInfo | LogWarn | LogError.

(** A line handed to the [Logger]; [tagged] tells whether the plugin's
    [loggerCtx] was passed along. *)
Record LogLine : Type := { level : LogLevel; text : string; tagged : bool }.

(** Every request the service sends to a collaborator, and the report the
    runtime gets of a promise that rejects with nobody handling it. *)
Inductive Call : Type :=
| PaymentMethodFindAll (channelToken : string)
| GetActiveOrder (activeOrder : option ID)
| AddSurchargeToOrder (orderId : ID) (input : SurchargeInput)
| Hydrate (entity : ID) (relations : list string)
| GetEligiblePaymentMethods (orderId : ID)
| StripeGetOrCreateCustomer (client : StripeClient) (customerId : ID)
| CustomerUpdate (customerId : ID) (stripeCustomerId : string)
| StripePaymentIntentsCreate (client : StripeClient) (params : PaymentIntentParams)
| StripeSubscriptionsUpdate (client : StripeClient) (subscriptionId : string)
| FindOneByCode (orderCode : string) (relations : list string)
| FindOneByOrderLineId (orderLineId : ID) (relations : list string)
| TransitionToState (orderId : ID) (state : string)
| AddPaymentToOrder (orderId : ID) (input : PaymentInput)
| CreateHistoryEntryForOrder (entry : HistoryEntry)
| JobQueueAdd (data : JobData) (retries : option nat)
| OrderLineUpdate (orderLineId : ID) (hash : string)
| UnhandledRejection (reason : JsError).

(** The world the service runs in. *)
Record World : Type := {
  paymentMethods : list PaymentMethod;
  orders : list Order;
  history : list HistoryEntry;
  jobs : list QueuedJob;
  logs : list LogLine;
  (** number of identifiers drawn so far from the random source *)
  drawn : nat;
  trace : list Call
}.

(** What the collaborators answer.  Every oracle sees the trace of calls
    made before the one it answers. *)
Record Env : Type := {
  (** [Some e]: the call rejects with [e] *)
  fault : list Call -> Call -> option JsError;
  (** [stripeSubscriptionHandler.code], declared in
      payment-method/stripe-subscription.handler *)
  stripeSubscriptionHandler_code : string;
  (** [options.subscriptionStrategy.isSubscription] *)
  isSubscription : RequestContext -> OrderLine -> bool;
  (** the [n]-th value returned by [crypto.randomUUID] *)
  randomUUID : nat -> string;
  (** [printMoney] of ./util *)
  printMoney : Z -> string;
  eligiblePaymentMethods : list Call -> ID -> list PaymentMethodQuote;
  (** the id of the provider-side customer found or created *)
  stripeCustomerId_of : list Call -> Customer -> string;
  createdIntent : list Call -> PaymentIntentParams -> PaymentIntent;
  transitionRejection :
    list Call -> ID -> string -> option OrderStateTransitionError;
  paymentRejection : list Call -> ID -> PaymentInput -> option ErrorResult;
  (** the tax-inclusive total the framework computes for an order that
      just received a surcharge *)
  repricedTotal : list Call -> Order -> SurchargeInput -> Z;
  (** retries of a job added without a [retries] option *)
  defaultRetries : nat
}.

(* ================================================================== *)
(** ** The monad of service computations *)
(* ================================================================== *)

Inductive Outcome (A : Type) : Type :=
| Ok (a : A)
| Throw (e : JsError).

Arguments Ok {A} a.
Arguments Throw {A} e.

Definition M (A : Type) : Type := World -> Outcome A * World.

Definition ret {A} (a : A) : M A := fun w => (Ok a, w).

Definition bind {A B} (m : M A) (k : A -> M B) : M B :=
  fun w =>
    match m w with
    | (Ok a, w') => k a w'
    | (Throw e, w') => (Throw e, w')
    end.

Definition throw {A} (e : JsError) : M A := fun w => (Throw e, w).

(** [try { m } catch (e) { h e }] *)
Definition tryCatch {A} (m : M A) (h : JsError -> M A) : M A :=
  fun w =>
    match m w with
    | (Ok a, w') => (Ok a, w')
    | (Throw e, w') => h e w'
    end.

(** A promise that is started and never awaited, and that carries its own
    [catch]: its effects take place and the caller goes on. *)
Definition notAwaited {A} (m : M A) : M unit :=
  fun w => (Ok tt, snd (m w)).

Definition gets {A} (f : World -> A) : M A := fun w => (Ok (f w), w).

Definition modify (f : World -> World) : M unit := fun w => (Ok tt, f w).

Notation "x <- c ;; k" := (bind c (fun x => k))
  (at level 61, c at next level, right associativity).
Notation "c ;; k" := (bind c (fun _ => k))
  (at level 61, right associativity).

(** [for (const x of xs) { body x }] *)
Fixpoint forOf {A} (xs : list A) (body : A -> M unit) : M unit :=
  match xs with
  | [] => ret tt
  | x :: rest => body x ;; forOf rest body
  end.

(** [await Promise.all(xs.map(f))]: every promise is started, in order,
    before any is awaited; the first rejection in list order is the one
    thrown. *)
Fixpoint promiseAllMap {A} (xs : list A) (f : A -> M unit) : M unit :=
  match xs with
  | [] => ret tt
  | x :: rest =>
      fun w =>
        match f x w with
        | (Ok _, w1) => promiseAllMap rest f w1
        | (Throw e, w1) => (Throw e, snd (promiseAllMap rest f w1))
        end
  end.

(* ================================================================== *)
(** ** World updates *)
(* ================================================================== *)

Definition set_orders (f : list Order -> list Order) (w : World) : World :=
  {| paymentMethods := paymentMethods w; orders := f (orders w);
     history := history w; jobs := jobs w; logs := logs w;
     drawn := drawn w; trace := trace w |}.

Definition add_history (h : HistoryEntry) (w : World) : World :=
  {| paymentMethods := paymentMethods w; orders := orders w;
     history := history w ++ [h]; jobs := jobs w; logs := logs w;
     drawn := drawn w; trace := trace w |}.

Definition add_job (j : QueuedJob) (w : World) : World :=
  {| paymentMethods := paymentMethods w; orders := orders w;
     history := history w; jobs := jobs w ++ [j]; logs := logs w;
     drawn := drawn w; trace := trace w |}.

Definition add_log (l : LogLine) (w : World) : World :=
  {| paymentMethods := paymentMethods w; orders := orders w;
     history := history w; jobs := jobs w; logs := logs w ++ [l];
     drawn := drawn w; trace := trace w |}.

Definition add_drawn (w : World) : World :=
  {| paymentMethods := paymentMethods w; orders := orders w;
     history := history w; jobs := jobs w; logs := logs w;
     drawn := S (drawn w); trace := trace w |}.

Definition add_call (c : Call) (w : World) : World :=
  {| paymentMethods := paymentMethods w; orders := orders w;
     history := history w; jobs := jobs w; logs := logs w;
     drawn := drawn w; trace := trace w ++ [c] |}.

(** A promise that is started, never awaited and has no [catch]: its
    effects take place and the caller goes on; when it rejects, nobody is
    there to handle the rejection and the runtime is told of it.  What the
    runtime then does is outside the service. *)
Definition floating {A} (m : M A) : M unit :=
  fun w =>
    match m w with
    | (Ok _, w') => (Ok tt, w')
    | (Throw e, w') => (Ok tt, add_call (UnhandledRejection e) w')
    end.

Definition option_truthy {A} (o : option A) : bool :=
  match o with
  | Some _ => true
  | None => false
  end.

(** [{ ...o, surcharges: [...o.surcharges, s], totalWithTax: total }] *)
Definition with_surcharge (s : SurchargeInput) (total : Z) (o : Order) : Order :=
  {| o_id := o_id o; o_code := o_code o; o_active := o_active o;
     o_state := o_state o; totalWithTax := total;
     currencyCode := currencyCode o; lines := lines o;
     customer := customer o; shippingLines := shippingLines o;
     surcharges := surcharges o ++ [s]; payments := payments o |}.

Definition with_state (st : string) (o : Order) : Order :=
  {| o_id := o_id o; o_code := o_code o; o_active := o_active o;
     o_state := st; totalWithTax := totalWithTax o;
     currencyCode := currencyCode o; lines := lines o;
     customer := customer o; shippingLines := shippingLines o;
     surcharges := surcharges o; payments := payments o |}.

Definition with_payment (p : PaymentInput) (o : Order) : Order :=
  {| o_id := o_id o; o_code := o_code o; o_active := o_active o;
     o_state := o_state o; totalWithTax := totalWithTax o;
     currencyCode := currencyCode o; lines := lines o;
     customer := customer o; shippingLines := shippingLines o;
     surcharges := surcharges o; payments := payments o ++ [p] |}.

Definition with_lines (ls : list OrderLine) (o : Order) : Order :=
  {| o_id := o_id o; o_code := o_code o; o_active := o_active o;
     o_state := o_state o; totalWithTax := totalWithTax o;
     currencyCode := currencyCode o; lines := ls;
     customer := customer o; shippingLines := shippingLines o;
     surcharges := surcharges o; payments := payments o |}.

Definition with_customer (c : option Customer) (o : Order) : Order :=
  {| o_id := o_id o; o_code := o_code o; o_active := o_active o;
     o_state := o_state o; totalWithTax := totalWithTax o;
     currencyCode := currencyCode o; lines := lines o;
     customer := c; shippingLines := shippingLines o;
     surcharges := surcharges o; payments := payments o |}.

Definition with_hash (h : string) (l : OrderLine) : OrderLine :=
  {| ol_id := ol_id l; productVariant := productVariant l;
     subscriptionHash := Some h; subscriptionIds := subscriptionIds l |}.

Definition with_stripeCustomer (sc : string) (c : Customer) : Customer :=
  {| c_id := c_id c; emailAddress := emailAddress c;
     stripeSubscriptionCustomerId := Some sc |}.

(** Apply [f] to the stored orders whose id is [i]. *)
Definition update_order (i : ID) (f : Order -> Order) : list Order -> list Order :=
  map (fun o => if id_eqb (o_id o) i then f o else o).

(** [UPDATE order_line SET subscriptionHash = h WHERE id = i] *)
Definition update_line_hash (i : ID) (h : string) : list Order -> list Order :=
  map (fun o =>
         with_lines
           (map (fun l => if id_eqb (ol_id l) i then with_hash h l else l) (lines o))
           o).

Definition update_customer (i : ID) (sc : string) : list Order -> list Order :=
  map (fun o =>
         match customer o with
         | Some c =>
             if id_eqb (c_id c) i
             then with_customer (Some (with_stripeCustomer sc c)) o
             else o
         | None => o
         end).

(** All order lines in the store. *)
Definition stored_lines (w : World) : list OrderLine :=
  flat_map lines (orders w).

(* ================================================================== *)
(** ** Queries on the store *)
(* ================================================================== *)

(** The stored order with id [i]. *)
Definition orderById (i : ID) (w : World) : option Order :=
  find (fun o => id_eqb (o_id o) i) (orders w).

(** The stored order with code [orderCode]. *)
Definition orderByCode (orderCode : string) (w : World) : option Order :=
  find (fun o => String.eqb (o_code o) orderCode) (orders w).

(** The stored order that owns the line with id [orderLineId]. *)
Definition orderOfLine (orderLineId : ID) (w : World) : option Order :=
  find (fun o => existsb (fun l => id_eqb (ol_id l) orderLineId) (lines o))
       (orders w).

(** [order.lines.find((l) => l.id == orderLineId)] *)
Definition lineOf (orderLineId : ID) (o : Order) : option OrderLine :=
  find (fun l => id_eqb (ol_id l) orderLineId) (lines o).

(** The active order of the session of [ctx]: the order the session points
    to, unless it is no longer active. *)
Definition activeOrderOf (ctx : RequestContext) (w : World) : option Order :=
  match activeOrderId ctx with
  | Some i =>
      match orderById i w with
      | Some o => if o_active o then Some o else None
      | None => None
      end
  | None => None
  end.

(** The enabled payment methods assigned to the channel of [ctx]. *)
Definition enabledMethods (ctx : RequestContext) (w : World)
  : list PaymentMethod :=
  filter (fun pm =>
            pm_enabled pm &&
            existsb (String.eqb (token (channel ctx))) (pm_channels pm))
         (paymentMethods w).

(* ================================================================== *)
(** ** The collaborators *)
(* ================================================================== *)

Section Service.

Variable E : Env.

(** A request to a collaborator is recorded in the trace, and rejects when
    the environment says so. *)
Definition request (c : Call) : M unit :=
  fun w =>
    match fault E (trace w) c with
    | Some e => (Throw e, add_call c w)
    | None => (Ok tt, add_call c w)
    end.

(** An answer computed by the environment from the trace before the call. *)
Definition ask {A} (c : Call) (answer : list Call -> A) : M A :=
  fun w =>
    match fault E (trace w) c with
    | Some e => (Throw e, add_call c w)
    | None => (Ok (answer (trace w)), add_call c w)
    end.

Definition Logger_info (msg : string) (withCtx : bool) : M unit :=
  modify (add_log {| level := LogInfo; text := msg; tagged := withCtx |}).

Definition Logger_warn (msg : string) (withCtx : bool) : M unit :=
  modify (add_log {| level := LogWarn; text := msg; tagged := withCtx |}).

Definition Logger_error (msg : string) (withCtx : bool) : M unit :=
  modify (add_log {| level := LogError; text := msg; tagged := withCtx |}).

(** [paymentMethodService.findAll(ctx, { filter: { enabled: { eq: true } } }).items]:
    the enabled payment methods assigned to the channel of [ctx]. *)
Definition paymentMethodService_findAll (ctx : RequestContext)
  : M (list PaymentMethod) :=
  request (PaymentMethodFindAll (token (channel ctx))) ;;
  gets (enabledMethods ctx).

Definition orderService_findOneByCode (ctx : RequestContext) (orderCode : string)
  (relations : list string) : M (option Order) :=
  request (FindOneByCode orderCode relations) ;;
  gets (orderByCode orderCode).

Definition orderService_findOneByOrderLineId (ctx : RequestContext)
  (orderLineId : ID) (relations : list string) : M (option Order) :=
  request (FindOneByOrderLineId orderLineId relations) ;;
  gets (orderOfLine orderLineId).

Definition activeOrderService_getActiveOrder (ctx : RequestContext)
  : M (option Order) :=
  request (GetActiveOrder (activeOrderId ctx)) ;;
  gets (activeOrderOf ctx).

(** Relations are always loaded in this model, so hydration only is a
    request that may reject. *)
Definition entityHydrator_hydrate (ctx : RequestContext) (entity : ID)
  (relations : list string) : M unit :=
  request (Hydrate entity relations).

(** The framework stores the surcharge with the order, reprices the order
    and returns it; an unknown order id is an error. *)
Definition orderService_addSurchargeToOrder (ctx : RequestContext)
  (orderId : ID) (input : SurchargeInput) : M Order :=
  total <- ask (AddSurchargeToOrder orderId input)
             (fun tr o => repricedTotal E tr o input) ;;
  found <- gets (orderById orderId) ;;
  match found with
  | None => throw (ForeignError "EntityNotFoundError" orderId)
  | Some o =>
      modify (set_orders
                (update_order orderId (fun o' => with_surcharge input (total o') o'))) ;;
      ret (with_surcharge input (total o) o)
  end.

Definition orderService_getEligiblePaymentMethods (ctx : RequestContext)
  (orderId : ID) : M (list PaymentMethodQuote) :=
  ask (GetEligiblePaymentMethods orderId)
      (fun tr => eligiblePaymentMethods E tr orderId).

(** [OrderStateTransitionError | Order]; a rejected transition is returned,
    not thrown. *)
Definition orderService_transitionToState (ctx : RequestContext)
  (orderId : ID) (state : string) : M (option OrderStateTransitionError) :=
  r <- ask (TransitionToState orderId state)
         (fun tr => transitionRejection E tr orderId state) ;;
  match r with
  | Some err => ret (Some err)
  | None =>
      modify (set_orders (update_order orderId (with_state state))) ;;
      ret None
  end.

(** [ErrorResult | Order] *)
Definition orderService_addPaymentToOrder (ctx : RequestContext)
  (orderId : ID) (input : PaymentInput) : M (option ErrorResult) :=
  r <- ask (AddPaymentToOrder orderId input)
         (fun tr => paymentRejection E tr orderId input) ;;
  match r with
  | Some err => ret (Some err)
  | None =>
      modify (set_orders (update_order orderId (with_payment input))) ;;
      ret None
  end.

Definition customerService_update (ctx : RequestContext) (customerId : ID)
  (stripeCustomer : string) : M unit :=
  request (CustomerUpdate customerId stripeCustomer) ;;
  modify (set_orders (update_customer customerId stripeCustomer)).

Definition historyService_createHistoryEntryForOrder (entry : HistoryEntry)
  : M unit :=
  request (CreateHistoryEntryForOrder entry) ;;
  modify (add_history entry).

Definition jobQueue_add (data : JobData) (retries : option nat) : M unit :=
  request (JobQueueAdd data retries) ;;
  modify (add_job {| q_data := data; q_retries := retries |}).

(** [connection.getRepository(ctx, OrderLine).update({ id }, { customFields: { subscriptionHash } })] *)
Definition orderLineRepository_update (ctx : RequestContext) (orderLineId : ID)
  (hash : string) : M unit :=
  request (OrderLineUpdate orderLineId hash) ;;
  modify (set_orders (update_line_hash orderLineId hash)).

(** [randomUUID()] *)
Definition crypto_randomUUID : M string :=
  fun w => (Ok (randomUUID E (drawn w)), add_drawn w).

Definition stripeClient_subscriptions_update (client : StripeClient)
  (subscriptionId : string) : M unit :=
  request (StripeSubscriptionsUpdate client subscriptionId).

Definition stripeClient_getOrCreateCustomer (client : StripeClient)
  (c : Customer) : M string :=
  ask (StripeGetOrCreateCustomer client (c_id c))
      (fun tr => stripeCustomerId_of E tr c).

Definition stripeClient_paymentIntents_create (client : StripeClient)
  (params : PaymentIntentParams) : M PaymentIntent :=
  ask (StripePaymentIntentsCreate client params)
      (fun tr => createdIntent E tr params).

(* ================================================================== *)
(** ** The service *)
(* ================================================================== *)

(** [args.find((arg) => arg.name === n)?.value] *)
Definition find_arg (n : string) (args : list ConfigArg) : option string :=
  option_map arg_value (find (fun arg => String.eqb (arg_name arg) n) args).

Definition getStripeContext (ctx : RequestContext) : M StripeContext :=
  items <- paymentMethodService_findAll ctx ;;
  let stripePaymentMethods :=
    filter (fun pm =>
              String.eqb (handler_code (pm_handler pm))
                         (stripeSubscriptionHandler_code E))
           items in
  if 1 <? length stripePaymentMethods then
    throw (UserInputError
             "Multiple payment methods found with handler 'stripe-subscription', there should only be 1 per channel!")
  else
    match nth_error stripePaymentMethods 0 with
    | None =>
        throw (UserInputError
                 "No enabled payment method found with handler 'stripe-subscription'")
    | Some paymentMethod =>
        let apiKey := find_arg "apiKey" (handler_args (pm_handler paymentMethod)) in
        let webhookSecret :=
          find_arg "webhookSecret" (handler_args (pm_handler paymentMethod)) in
        match apiKey, webhookSecret with
        | Some k, Some s =>
            if negb (truthy k) || negb (truthy s) then
              Logger_warn
                ("No api key or webhook secret is configured for "
                   ++ pm_code paymentMethod)%string true ;;
              throw (Error
                       ("Payment method " ++ pm_code paymentMethod
                          ++ " has no api key or webhook secret configured")%string)
            else
              ret {| paymentMethod := paymentMethod;
                     stripeClient := {| webhookSecret := s; apiKey := k |} |}
        | _, _ =>
            Logger_warn
              ("No api key or webhook secret is configured for "
                 ++ pm_code paymentMethod)%string true ;;
            throw (Error
                     ("Payment method " ++ pm_code paymentMethod
                        ++ " has no api key or webhook secret configured")%string)
        end
    end.

Definition prettify (p : StripeSubscriptionPricing) : PrettyPricing :=
  {| pp_totalProratedAmount := printMoney E (totalProratedAmount p);
     pp_downpayment := printMoney E (downpayment p);
     pp_recurringPrice := printMoney E (recurringPrice p);
     pp_amountDueNow := printMoney E (amountDueNow p);
     pp_dayRate := printMoney E (dayRate p) |}.

Definition logHistoryEntry (ctx : RequestContext) (orderId : ID)
  (message : string) (error : option ErrorValue)
  (pricing : option StripeSubscriptionPricing)
  (subscriptionId : option string) : M unit :=
  let isError :=
    match error with
    | Some v => errorValue_truthy v
    | None => false
    end in
  let prettifiedError := if isError then error else None in
  let prettifierPricing := option_map prettify pricing in
  historyService_createHistoryEntryForOrder
    {| h_orderId := orderId;
       h_message := message;
       h_valid := negb isError;
       h_error := prettifiedError;
       h_subscriptionId := subscriptionId;
       h_pricing := prettifierPricing |}.

(** One turn of the loop of [cancelSubscriptionForOrderLine]. *)
Definition cancelOne (ctx : RequestContext) (order : Order)
  (client : StripeClient) (subscriptionId : string) : M unit :=
  tryCatch
    (stripeClient_subscriptions_update client subscriptionId ;;
     Logger_info ("Cancelled subscription " ++ subscriptionId)%string false ;;
     logHistoryEntry ctx (o_id order)
       ("Cancelled subscription " ++ subscriptionId)%string
       None None (Some subscriptionId))
    (fun e =>
       Logger_error ("Failed to cancel subscription " ++ subscriptionId)%string true ;;
       logHistoryEntry ctx (o_id order)
         ("Failed to cancel " ++ subscriptionId)%string
         (Some (ErrObject e)) None (Some subscriptionId)).

(** [line?.customFields.subscriptionIds], an absent line or list read as
    no identifiers. *)
Definition idsOf (line : option OrderLine) : list string :=
  match line with
  | Some l =>
      match subscriptionIds l with
      | Some ids => ids
      | None => []
      end
  | None => []
  end.

Definition cancelSubscriptionForOrderLine (ctx : RequestContext)
  (orderLineId : ID) : M unit :=
  found <- orderService_findOneByOrderLineId ctx orderLineId ["lines"%string] ;;
  match found with
  | None =>
      throw (Error ("Order for OrderLine " ++ orderLineId ++ " not found")%string)
  | Some order =>
      let line := lineOf orderLineId order in
      match idsOf line with
      | [] =>
          Logger_info
            ("OrderLine " ++ orderLineId ++ " of " ++ orderLineId
               ++ " has no subscriptionIds. Not cancelling anything... ")%string
            true
      | ids =>
          entityHydrator_hydrate ctx orderLineId ["order"%string] ;;
          sc <- getStripeContext ctx ;;
          forOf ids (cancelOne ctx order (stripeClient sc))
      end
  end.

Definition verificationFee : SurchargeInput :=
  {| description := "Verification fee";
     listPrice := 100;
     listPriceIncludesTax := true |}.

Definition createIntent (ctx : RequestContext) : M StripeSubscriptionIntent :=
  active <- activeOrderService_getActiveOrder ctx ;;
  match active with
  | None => throw (UserInputError "No active order for session")
  | Some order0 =>
      order <- (if Z.eqb (totalWithTax order0) 0
                then orderService_addSurchargeToOrder ctx (o_id order0) verificationFee
                else ret order0) ;;
      entityHydrator_hydrate ctx (o_id order)
        ["customer"; "shippingLines"; "lines.productVariant"]%string ;;
      match lines order with
      | [] => throw (UserInputError "Cannot create payment intent for empty order")
      | _ :: _ =>
      match customer order with
      | None =>
          throw (UserInputError
                   "Cannot create payment intent for order without customer")
      | Some orderCustomer =>
      match shippingLines order with
      | [] =>
          throw (UserInputError
                   "Cannot create payment intent for order without shippingMethod")
      | _ :: _ =>
          quotes <- orderService_getEligiblePaymentMethods ctx (o_id order) ;;
          let eligibleStripeMethodCodes :=
            map quote_code (filter isEligible quotes) in
          sc <- getStripeContext ctx ;;
          if negb (existsb (String.eqb (pm_code (paymentMethod sc)))
                           eligibleStripeMethodCodes)
          then
            throw (UserInputError
                     "No eligible payment method found with code 'stripe-subscription'")
          else
            stripeCustomer <-
              stripeClient_getOrCreateCustomer (stripeClient sc) orderCustomer ;;
            notAwaited
              (tryCatch
                 (customerService_update ctx (c_id orderCustomer) stripeCustomer)
                 (fun err =>
                    Logger_error
                      ("Failed to update stripeCustomerId " ++ stripeCustomer
                         ++ " for " ++ emailAddress orderCustomer)%string true)) ;;
            let hasSubscriptionProducts :=
              existsb (fun l => option_truthy (subscriptionSchedule (productVariant l)))
                      (lines order) in
            intent <-
              stripeClient_paymentIntents_create (stripeClient sc)
                {| pi_customer := stripeCustomer;
                   pi_payment_method_types := ["card"%string];
                   pi_setup_future_usage :=
                     if hasSubscriptionProducts then "off_session" else "on_session";
                   pi_amount := totalWithTax order;
                   pi_currency := currencyCode order;
                   pi_meta_orderCode := o_code order;
                   pi_meta_channelToken := token (channel ctx);
                   pi_meta_amount := totalWithTax order |} ;;
            let intentType := SetupIntent in
            Logger_info
              ("Created " ++ intentType_toString intentType ++ " '"
                 ++ intent_id intent ++ "' for order " ++ o_code order)%string true ;;
            match client_secret intent with
            | Some secret =>
                if truthy secret then
                  ret {| clientSecret := secret; intentType := intentType |}
                else
                  throw (Error
                           ("No client_secret found in "
                              ++ intentType_toString intentType
                              ++ " response, something went wrong!")%string)
            | None =>
                throw (Error
                         ("No client_secret found in "
                            ++ intentType_toString intentType
                            ++ " response, something went wrong!")%string)
            end
      end end end
  end.

Definition handlePaymentIntentSucceeded (ctx : RequestContext)
  (object : StripePaymentIntent) (order : Order) : M unit :=
  sc <- getStripeContext ctx ;;
  let paymentMethodCode := pm_code (paymentMethod sc) in
  match spi_customer object with
  | None =>
      logHistoryEntry ctx (o_id order) ""
        (Some (ErrString
                 "No customer ID found in incoming webhook. Can not create subscriptions for this order."))
        None None ;;
      throw (Error ("No customer found in webhook data for order " ++ o_code order)%string)
  | Some objectCustomer =>
      if negb (truthy objectCustomer) then
        logHistoryEntry ctx (o_id order) ""
          (Some (ErrString
                   "No customer ID found in incoming webhook. Can not create subscriptions for this order."))
          None None ;;
        throw (Error ("No customer found in webhook data for order " ++ o_code order)%string)
      else
        notAwaited
          (tryCatch
             (jobQueue_add
                (CreateSubscriptionsJob (serialize ctx) (o_code order)
                   objectCustomer (spi_payment_method object))
                (Some 0))
             (fun e =>
                Logger_error "Failed to add subscription-creation job to queue" true)) ;;
        (if negb (String.eqb (o_state order) "ArrangingPayment") then
           transitionToStateResult <-
             orderService_transitionToState ctx (o_id order) "ArrangingPayment" ;;
           match transitionToStateResult with
           | Some err =>
               throw (Error
                        ("Error transitioning order " ++ o_code order ++ " from "
                           ++ fromState err ++ " to " ++ toState err ++ ": "
                           ++ transition_message err)%string)
           | None => ret tt
           end
         else ret tt) ;;
        addPaymentToOrderResult <-
          orderService_addPaymentToOrder ctx (o_id order)
            {| method := paymentMethodCode;
               meta_setupIntentId := spi_id object;
               meta_amount := spi_meta_amount object |} ;;
        match addPaymentToOrderResult with
        | Some err =>
            if truthy (errorCode err) then
              throw (Error
                       ("Error adding payment to order " ++ o_code order ++ ": "
                          ++ result_message err)%string)
            else
              Logger_info
                ("Successfully settled payment for order " ++ o_code order
                   ++ " for channel " ++ token (channel ctx))%string true
        | None =>
            Logger_info
              ("Successfully settled payment for order " ++ o_code order
                 ++ " for channel " ++ token (channel ctx))%string true
        end
  end.

(** The body of the inner [try] is empty in the source (a stub marked
    FIXME), so its [catch] can never run. *)
Definition createSubscriptions (ctx : RequestContext)
  (orderCode stripeCustomerId stripePaymentMethodId : string) : M unit :=
  found <- orderService_findOneByCode ctx orderCode
             ["customer"; "lines"; "lines.productVariant"]%string ;;
  match found with
  | None => throw (Error ("Cannot find order with code " ++ orderCode)%string)
  | Some order =>
      tryCatch
        (ret tt)
        (fun e =>
           logHistoryEntry ctx (o_id order) "" (Some (ErrObject e)) None None ;;
           throw e)
  end.

(** The [process] callback of the [stripe-subscription] queue, for the job
    with payload [data] and job id [id]. *)
Definition process (data : JobData) (id : ID) : M unit :=
  let ctx := deserialize (job_ctx data) in
  match data with
  | CancelSubscriptionsJob _ orderLineId =>
      floating (cancelSubscriptionForOrderLine ctx orderLineId)
  | CreateSubscriptionsJob _ orderCode stripeCustomerId stripePaymentMethodId =>
      order <- orderService_findOneByCode ctx orderCode [] ;;
      tryCatch
        (createSubscriptions ctx orderCode stripeCustomerId stripePaymentMethodId)
        (fun error =>
           Logger_warn
             ("Failed to process job " ++ action data ++ " (" ++ id
                ++ ") for channel " ++ token (channel (job_ctx data)) ++ ": "
                ++ error_toString error)%string true ;;
           match order with
           | Some o =>
               logHistoryEntry ctx (o_id o) "Failed to create subscription"
                 (Some (ErrObject error)) None None
           | None => ret tt
           end ;;
           throw error)
  end.

(** The subscriber of [OrderLineEvent]. *)
Definition onOrderLineEvent (event : OrderLineEvent) : M unit :=
  if match ole_type event with created => true | _ => false end
     && isSubscription E (ole_ctx event) (ole_orderLine event)
  then
    hash <- crypto_randomUUID ;;
    orderLineRepository_update (ole_ctx event) (ol_id (ole_orderLine event)) hash
  else ret tt.

(** The subscriber of [StockMovementEvent], behind its [filter]. *)
Definition onStockMovementEvent (event : StockMovementEvent) : M unit :=
  if match sme_type event with RELEASE | CANCELLATION => true | _ => false end
  then
    let cancelOrReleaseEvents := stockMovements event in
    let orderLinesWithSubscriptions :=
      filter (fun ev => option_truthy (subscriptionIds (sm_orderLine ev)))
             cancelOrReleaseEvents in
    promiseAllMap orderLinesWithSubscriptions
      (fun line =>
         jobQueue_add
           (CancelSubscriptionsJob (serialize (sme_ctx event)) (sm_id line))
           None)
  else ret tt.

(* ================================================================== *)
(** ** The queue's worker *)
(* ================================================================== *)

(** Modelled from the spec: the job queue is the framework's ("named queue
    accepting typed payloads, asynchronous worker invocation, configurable
    per-job retry count").  A job is attempted once, and once more after
    each attempt that throws, as long as retries are left. *)
Fixpoint attempt (retriesLeft : nat) (data : JobData) (id : ID) : M unit :=
  match retriesLeft with
  | 0 => process data id
  | S n => tryCatch (process data id) (fun _ => attempt n data id)
  end.

Definition retriesOf (j : QueuedJob) : nat :=
  match q_retries j with
  | Some n => n
  | None => defaultRetries E
  end.

Definition work (j : QueuedJob) (id : ID) : M unit :=
  attempt (retriesOf j) (q_data j) id.

End Service.

(* ================================================================== *)
(** ** The remaining methods of the service *)
(* ================================================================== *)

(** The fields of a provider invoice that the service reads
    ([StripeInvoice] of ./types/stripe-invoice): its id, its subscription
    and, through [lines?.data[0]?.plan?.amount], the plan of its lines. *)
Record StripeInvoicePlan : Type := { plan_amount : Z }.

Record StripeInvoiceLine : Type := { line_plan : option StripeInvoicePlan }.

Record StripeInvoice : Type := {
  inv_id : string;
  inv_subscription : string;
  (** [lines?.data] *)
  inv_lines : option (list StripeInvoiceLine)
}.

Section OtherMethods.

Variable E : Env.

(** [object.lines?.data[0]?.plan?.amount] *)
Definition firstPlanAmount (object : StripeInvoice) : option Z :=
  match inv_lines object with
  | Some (l :: _) => option_map plan_amount (line_plan l)
  | _ => None
  end.

Definition handleInvoicePaymentFailed (ctx : RequestContext)
  (object : StripeInvoice) (order : Order) : M unit :=
  let amount := firstPlanAmount object in
  let message :=
    match amount with
    | Some a =>
        if Z.eqb a 0 then "Subscription payment failed"%string
        else ("Subscription payment of " ++ printMoney E a ++ " failed")%string
    | None => "Subscription payment failed"%string
    end in
  logHistoryEntry E ctx (o_id order) message
    (Some (ErrString (message ++ " - " ++ inv_id object)%string))
    None (Some (inv_subscription object)).

Definition hasSubscriptionProducts (ctx : RequestContext) (order : Order) : bool :=
  existsb (fun l => isSubscription E ctx l) (lines order).

(** [getSubscription] and [getAllSubscriptions] hand their arguments to a
    method of the provider's SDK, which is a parameter here: any computation
    that takes the channel's client. *)
Definition getSubscription {R} (subscriptions_retrieve : StripeClient -> string -> M R)
  (ctx : RequestContext) (subscriptionId : string) : M R :=
  sc <- getStripeContext E ctx ;;
  subscriptions_retrieve (stripeClient sc) subscriptionId.

Definition getAllSubscriptions {R P O}
  (subscriptions_list : StripeClient -> P -> O -> M R)
  (ctx : RequestContext) (params : P) (options : O) : M R :=
  sc <- getStripeContext E ctx ;;
  subscriptions_list (stripeClient sc) params options.

End OtherMethods.

(* ================================================================== *)
(** ** Notions the properties are stated with *)
(* ================================================================== *)

(** The enabled payment methods of the channel of [ctx] whose handler is
    the stripe-subscription handler. *)
Definition enabledStripeMethods (E : Env) (ctx : RequestContext) (w : World)
  : list PaymentMethod :=
  filter (fun pm =>
            String.eqb (handler_code (pm_handler pm))
                       (stripeSubscriptionHandler_code E))
         (enabledMethods ctx w).

(** The credentials configured on a payment method: the values of its
    first [apiKey] and first [webhookSecret] argument, both non-empty. *)
Definition credentials (pm : PaymentMethod) : option StripeClient :=
  match find_arg "apiKey" (handler_args (pm_handler pm)),
        find_arg "webhookSecret" (handler_args (pm_handler pm)) with
  | Some k, Some s =>
      if truthy k && truthy s
      then Some {| webhookSecret := s; apiKey := k |}
      else None
  | _, _ => None
  end.

(** No collaborator ever rejects. *)
Definition faultless (E : Env) : Prop :=
  forall tr c, fault E tr c = None.

Definition isTransitionOrPayment (c : Call) : bool :=
  match c with
  | TransitionToState _ _ | AddPaymentToOrder _ _ => true
  | _ => false
  end.

Definition isSurchargeCall (c : Call) : bool :=
  match c with
  | AddSurchargeToOrder _ _ => true
  | _ => false
  end.

Definition isSubscriptionsUpdate (c : Call) : bool :=
  match c with
  | StripeSubscriptionsUpdate _ _ => true
  | _ => false
  end.

(** [m], run from [w], made exactly the calls [tr], in that order. *)
Definition calls_of {A} (m : M A) (w : World) (tr : list Call) : Prop :=
  trace (snd (m w)) = trace w ++ tr.

(** The audit entry for a cancelled subscription. *)
Definition cancelledEntry (o : Order) (subscriptionId : string) : HistoryEntry :=
  {| h_orderId := o_id o;
     h_message := ("Cancelled subscription " ++ subscriptionId)%string;
     h_valid := true;
     h_error := None;
     h_subscriptionId := Some subscriptionId;
     h_pricing := None |}.

(** The audit entry for a cancellation the provider rejected with [e]. *)
Definition failedEntry (o : Order) (subscriptionId : string) (e : JsError)
  : HistoryEntry :=
  {| h_orderId := o_id o;
     h_message := ("Failed to cancel " ++ subscriptionId)%string;
     h_valid := false;
     h_error := Some (ErrObject e);
     h_subscriptionId := Some subscriptionId;
     h_pricing := None |}.

(** The audit entry the queue callback writes for a failed creation job. *)
Definition creationFailedEntry (o : Order) (e : JsError) : HistoryEntry :=
  {| h_orderId := o_id o;
     h_message := "Failed to create subscription";
     h_valid := false;
     h_error := Some (ErrObject e);
     h_subscriptionId := None;
     h_pricing := None |}.

(** The store after [addSurchargeToOrder] accepted the verification fee for
    order [i], asked when the calls [tr] had been made. *)
Definition ordersWithFee (E : Env) (tr : list Call) (i : ID) (os : list Order)
  : list Order :=
  update_order i
    (fun o => with_surcharge verificationFee
                (repricedTotal E tr o verificationFee) o)
    os.

(** Every hash in the store was drawn from the random source. *)
Definition hashes_drawn (E : Env) (w : World) : Prop :=
  forall l h,
    In l (stored_lines w) ->
    subscriptionHash l = Some h ->
    exists n, n < drawn w /\ h = randomUUID E n.

(** The job the stock-movement subscriber adds for a movement: its
    [orderLineId] is the id of the movement. *)
Definition cancellationJob (event : StockMovementEvent) (movement : StockMovement)
  : QueuedJob :=
  {| q_data := CancelSubscriptionsJob (serialize (sme_ctx event)) (sm_id movement);
     q_retries := None |}.

(** The report of a rejection that nothing handled. *)
Definition isUnhandledRejection (c : Call) : bool :=
  match c with
  | UnhandledRejection _ => true
  | _ => false
  end.

(** A sequence of calls in which no rejection went unhandled. *)
Definition handled (tr : list Call) : Prop :=
  forallb (fun c => negb (isUnhandledRejection c)) tr = true.

(** The movements that pass the filter of the subscriber: those whose order
    line has a [subscriptionIds] value, be it an empty list. *)
Definition passingMovements (event : StockMovementEvent) : list StockMovement :=
  filter (fun ev => option_truthy (subscriptionIds (sm_orderLine ev)))
         (stockMovements event).

Definition isJobQueueAdd (c : Call) : bool :=
  match c with
  | JobQueueAdd _ _ => true
  | _ => false
  end.

Definition isCustomerUpdate (c : Call) : bool :=
  match c with
  | CustomerUpdate _ _ => true
  | _ => false
  end.

Definition isIntentRequest (c : Call) : bool :=
  match c with
  | StripePaymentIntentsCreate _ _ => true
  | _ => false
  end.

Definition isProviderCall (c : Call) : bool :=
  match c with
  | StripeGetOrCreateCustomer _ _
  | StripePaymentIntentsCreate _ _
  | StripeSubscriptionsUpdate _ _ => true
  | _ => false
  end.

Definition isLookupOrAudit (c : Call) : bool :=
  match c with
  | FindOneByCode _ _ | CreateHistoryEntryForOrder _ => true
  | _ => false
  end.

(** The world with another list of payment methods. *)
Definition set_paymentMethods (pms : list PaymentMethod) (w : World) : World :=
  {| paymentMethods := pms; orders := orders w; history := history w;
     jobs := jobs w; logs := logs w; drawn := drawn w; trace := trace w |}.

(** The creation job the webhook handler adds for [order] and the
    customer and payment method named by the payload. *)
Definition creationJob (ctx : RequestContext) (order : Order)
  (objectCustomer : string) (object : StripePaymentIntent) : JobData :=
  CreateSubscriptionsJob (serialize ctx) (o_code order) objectCustomer
    (spi_payment_method object).

(** The payment the webhook handler settles on the order. *)
Definition settlement (sc : StripeContext) (object : StripePaymentIntent)
  : PaymentInput :=
  {| method := pm_code (paymentMethod sc);
     meta_setupIntentId := spi_id object;
     meta_amount := spi_meta_amount object |}.

Definition isTransition (c : Call) : bool :=
  match c with
  | TransitionToState _ _ => true
  | _ => false
  end.

Definition isSettlement (c : Call) : bool :=
  match c with
  | AddPaymentToOrder _ _ => true
  | _ => false
  end.

(** A request to write an audit entry that reports success. *)
Definition isValidAudit (c : Call) : bool :=
  match c with
  | CreateHistoryEntryForOrder h => h_valid h
  | _ => false
  end.

(** The request the stock-movement subscriber makes for a movement. *)
Definition cancellationRequest (event : StockMovementEvent) (m : StockMovement)
  : Call :=
  JobQueueAdd (CancelSubscriptionsJob (serialize (sme_ctx event)) (sm_id m)) None.

(** The audit message for a failed payment of unknown or zero amount. *)
Definition genericFailure : string := "Subscription payment failed".

(* ================================================================== *)
(** ** A sample deployment *)
(* ================================================================== *)

Module Sample.

(** A source of identifiers that never repeats: [u], [iu], [iiu], ... *)
Fixpoint tally (n : nat) : string :=
  match n with
  | 0 => "u"
  | S k => String "i"%char (tally k)
  end.

Definition env : Env :=
  {| fault := fun _ _ => None;
     stripeSubscriptionHandler_code := "stripe-subscription";
     isSubscription := fun _ l => option_truthy (subscriptionSchedule (productVariant l));
     randomUUID := tally;
     printMoney := fun _ => "0.00"%string;
     eligiblePaymentMethods := fun _ _ =>
       [{| quote_code := "stripe-subscription-method"; isEligible := true |}];
     stripeCustomerId_of := fun _ c => ("cus_" ++ c_id c)%string;
     createdIntent := fun _ _ =>
       {| intent_id := "pi_1"; client_secret := Some "secret_1"%string |};
     transitionRejection := fun _ _ _ => None;
     paymentRejection := fun _ _ _ => None;
     repricedTotal := fun _ o s => (totalWithTax o + listPrice s)%Z;
     defaultRetries := 0 |}.

(** The same deployment with a provider that rejects the cancellation of
    subscription [sub_A] and nothing else. *)
Definition env_failing_A : Env :=
  {| fault := fun _ c =>
       match c with
       | StripeSubscriptionsUpdate _ s =>
           if String.eqb s "sub_A"
           then Some (ForeignError "StripeError" "No such subscription")
           else None
       | _ => None
       end;
     stripeSubscriptionHandler_code := stripeSubscriptionHandler_code env;
     isSubscription := isSubscription env;
     randomUUID := randomUUID env;
     printMoney := printMoney env;
     eligiblePaymentMethods := eligiblePaymentMethods env;
     stripeCustomerId_of := stripeCustomerId_of env;
     createdIntent := createdIntent env;
     transitionRejection := transitionRejection env;
     paymentRejection := paymentRejection env;
     repricedTotal := repricedTotal env;
     defaultRetries := defaultRetries env |}.

(** The same deployment with a database that rejects the second lookup of
    an order by code. *)
Definition env_failing_lookup : Env :=
  {| fault := fun tr c =>
       match c with
       | FindOneByCode _ (_ :: _) => Some (ForeignError "QueryFailedError" "connection lost")
       | _ => None
       end;
     stripeSubscriptionHandler_code := stripeSubscriptionHandler_code env;
     isSubscription := isSubscription env;
     randomUUID := randomUUID env;
     printMoney := printMoney env;
     eligiblePaymentMethods := eligiblePaymentMethods env;
     stripeCustomerId_of := stripeCustomerId_of env;
     createdIntent := createdIntent env;
     transitionRejection := transitionRejection env;
     paymentRejection := paymentRejection env;
     repricedTotal := repricedTotal env;
     defaultRetries := defaultRetries env |}.

Definition ctx : RequestContext :=
  {| channel := {| token := "default-channel" |}; activeOrderId := Some "1"%string |}.

Definition stripeMethod : PaymentMethod :=
  {| pm_code := "stripe-subscription-method";
     pm_enabled := true;
     pm_channels := ["default-channel"%string];
     pm_handler :=
       {| handler_code := "stripe-subscription";
          handler_args :=
            [ {| arg_name := "webhookSecret"; arg_value := "whsec_1" |};
              {| arg_name := "apiKey"; arg_value := "sk_test_1" |} ] |} |}.

(** A stripe-subscription method nobody configured a key for. *)
Definition bareMethod : PaymentMethod :=
  {| pm_code := "stripe-subscription-method";
     pm_enabled := true;
     pm_channels := ["default-channel"%string];
     pm_handler :=
       {| handler_code := "stripe-subscription";
          handler_args :=
            [ {| arg_name := "webhookSecret"; arg_value := "whsec_1" |} ] |} |}.

Definition variant (schedule : option ID) : ProductVariant :=
  {| pv_id := "10"; subscriptionSchedule := schedule |}.

Definition line (i : ID) (ids : option (list string)) : OrderLine :=
  {| ol_id := i; productVariant := variant (Some "1"%string);
     subscriptionHash := None; subscriptionIds := ids |}.

Definition hayley : Customer :=
  {| c_id := "7"; emailAddress := "hayley@example.com";
     stripeSubscriptionCustomerId := None |}.

Definition order (total : Z) (ls : list OrderLine) (c : option Customer)
  (shipping : list ID) : Order :=
  {| o_id := "1"; o_code := "ORDER-1"; o_active := true;
     o_state := "AddingItems"; totalWithTax := total; currencyCode := "USD";
     lines := ls; customer := c; shippingLines := shipping;
     surcharges := []; payments := [] |}.

(** An order that costs nothing and is otherwise ready for payment. *)
Definition freeOrder : Order :=
  order 0 [line "5" None] (Some hayley) ["3"%string].

Definition world (pms : list PaymentMethod) (os : list Order) : World :=
  {| paymentMethods := pms; orders := os; history := []; jobs := [];
     logs := []; drawn := 0; trace := [] |}.

(** The sample deployment with other answers of the collaborators. *)
Definition env_with (f : list Call -> Call -> option JsError)
  (quotes : list PaymentMethodQuote)
  (transition : option OrderStateTransitionError)
  (payment : option ErrorResult) : Env :=
  {| fault := f;
     stripeSubscriptionHandler_code := stripeSubscriptionHandler_code env;
     isSubscription := isSubscription env;
     randomUUID := randomUUID env;
     printMoney := printMoney env;
     eligiblePaymentMethods := fun _ _ => quotes;
     stripeCustomerId_of := stripeCustomerId_of env;
     createdIntent := createdIntent env;
     transitionRejection := fun _ _ _ => transition;
     paymentRejection := fun _ _ _ => payment;
     repricedTotal := repricedTotal env;
     defaultRetries := defaultRetries env |}.

(** No payment method is eligible for any order. *)
Definition env_ineligible : Env := env_with (fun _ _ => None) [] None None.

(** The framework refuses to move orders to another state. *)
Definition env_rejecting_transition : Env :=
  env_with (fun _ _ => None)
    [{| quote_code := "stripe-subscription-method"; isEligible := true |}]
    (Some {| fromState := "AddingItems"; toState := "ArrangingPayment";
             transition_message := "Cannot transition" |})
    None.


(** The history service rejects the entries that report success. *)
Definition env_rejecting_success_audit : Env :=
  env_with
    (fun _ c =>
       match c with
       | CreateHistoryEntryForOrder h =>
           if h_valid h
           then Some (ForeignError "QueryFailedError" "history is read-only")
           else None
       | _ => None
       end)
    [{| quote_code := "stripe-subscription-method"; isEligible := true |}]
    None None.

(** An order with a price, ready for payment. *)
Definition paidOrder (state : string) : Order :=
  {| o_id := "1"; o_code := "ORDER-1"; o_active := true;
     o_state := state; totalWithTax := 1500; currencyCode := "USD";
     lines := [line "5" None]; customer := Some hayley;
     shippingLines := ["3"%string];
     surcharges := []; payments := [] |}.

(** A payment-intent payload that names its customer. *)
Definition succeededIntent : StripePaymentIntent :=
  {| spi_id := "pi_1"; spi_customer := Some "cus_7"%string;
     spi_payment_method := "pm_1"; spi_meta_amount := 1500 |}.

(** A stripe-subscription method that is switched off. *)
Definition disabledMethod : PaymentMethod :=
  {| pm_code := "stripe-subscription-old";
     pm_enabled := false;
     pm_channels := ["default-channel"%string];
     pm_handler := pm_handler stripeMethod |}.

(** A release of the stock of two lines, one with subscriptions. *)
Definition release : StockMovementEvent :=
  {| sme_ctx := ctx; sme_type := RELEASE;
     stockMovements :=
       [ {| sm_id := "900"; sm_orderLine := line "5" (Some ["sub_A"%string]) |};
         {| sm_id := "901"; sm_orderLine := line "6" None |} ] |}.

End Sample.

(* ================================================================== *)
(** ** Symbolic execution *)
(* ================================================================== *)

Ltac unfold_service :=
  unfold logHistoryEntry, historyService_createHistoryEntryForOrder,
    jobQueue_add, orderService_transitionToState,
    orderService_addPaymentToOrder, orderService_findOneByCode,
    orderService_findOneByOrderLineId, orderService_addSurchargeToOrder,
    orderService_getEligiblePaymentMethods, activeOrderService_getActiveOrder,
    entityHydrator_hydrate, customerService_update,
    orderLineRepository_update, crypto_randomUUID,
    stripeClient_subscriptions_update, stripeClient_getOrCreateCustomer,
    stripeClient_paymentIntents_create,
    Logger_info, Logger_warn, Logger_error,
    request, ask, gets, modify, throw, ret, tryCatch, notAwaited, bind.

(** Split on the next answer of the environment. *)
Ltac on_fault :=
  match goal with
  | |- context [fault ?E ?tr ?c] =>
      let Hf := fresh "Hfault" in
      destruct (fault E tr c) eqn:Hf
  end.

Ltac unfold_service_in H :=
  unfold logHistoryEntry, historyService_createHistoryEntryForOrder,
    jobQueue_add, orderService_transitionToState,
    orderService_addPaymentToOrder, orderService_findOneByCode,
    orderService_findOneByOrderLineId, orderService_addSurchargeToOrder,
    orderService_getEligiblePaymentMethods, activeOrderService_getActiveOrder,
    entityHydrator_hydrate, customerService_update,
    orderLineRepository_update, crypto_randomUUID,
    stripeClient_subscriptions_update, stripeClient_getOrCreateCustomer,
    stripeClient_paymentIntents_create,
    Logger_info, Logger_warn, Logger_error,
    request, ask, gets, modify, throw, ret, tryCatch, notAwaited, bind in H.

(** Read the stores of a world built by the updates. *)
Tactic Notation "cbn_world" :=
  cbn [trace jobs orders history logs drawn paymentMethods
       add_call add_job add_log add_history add_drawn set_orders].

Tactic Notation "cbn_world" "in" hyp(H) :=
  cbn [trace jobs orders history logs drawn paymentMethods
       add_call add_job add_log add_history add_drawn set_orders] in H.

(** Read the stores and the fields of orders everywhere, and flatten the
    traces. *)
Ltac norm_all :=
  cbn [trace jobs orders history logs drawn paymentMethods
       add_call add_job add_log add_history add_drawn set_orders
       o_id o_code o_state totalWithTax currencyCode lines customer
       shippingLines with_surcharge stripeClient paymentMethod] in *;
  rewrite <- ?app_assoc in *; cbn [app] in *.

(** Run the computation in [H : m w = (out, w')] to its end, splitting on
    every answer of the environment and every test on the way. *)
Ltac run_in H :=
  repeat
    (cbn [fst snd negb] in H;
     match type of H with
     | context [fault ?E ?tr ?c] =>
         let Hf := fresh "Hfault" in
         destruct (fault E tr c) eqn:Hf
     | context [match ?x with Some _ => _ | None => _ end] =>
         let Hx := fresh "Hcase" in
         destruct x eqn:Hx
     | context [if ?x then _ else _] =>
         let Hx := fresh "Htest" in
         destruct x eqn:Hx
     end);
  cbn [fst snd negb] in H.

(* ================================================================== *)
(** ** Sanity checks on the sample deployment *)
(* ================================================================== *)

Example sample_context_resolves :
  fst (getStripeContext Sample.env Sample.ctx
         (Sample.world [Sample.stripeMethod] [])) =
  Ok {| paymentMethod := Sample.stripeMethod;
        stripeClient := {| webhookSecret := "whsec_1"; apiKey := "sk_test_1" |} |}.
Proof. reflexivity. Qed.

Example sample_context_ambiguous :
  fst (getStripeContext Sample.env Sample.ctx
         (Sample.world [Sample.stripeMethod; Sample.stripeMethod] [])) =
  Throw (UserInputError
           "Multiple payment methods found with handler 'stripe-subscription', there should only be 1 per channel!").
Proof. reflexivity. Qed.

Example sample_createIntent :
  fst (createIntent Sample.env Sample.ctx
         (Sample.world [Sample.stripeMethod] [Sample.freeOrder]))
  = Ok {| clientSecret := "secret_1"; intentType := SetupIntent |} /\
  map isSurchargeCall
    (trace (snd (createIntent Sample.env Sample.ctx
                   (Sample.world [Sample.stripeMethod] [Sample.freeOrder]))))
  = [false; true; false; false; false; false; false; false].
Proof. split; reflexivity. Qed.

Example sample_payment_succeeded :
  let w' :=
    snd (handlePaymentIntentSucceeded Sample.env Sample.ctx
           {| spi_id := "pi_1"; spi_customer := Some "cus_7"%string;
              spi_payment_method := "pm_1"; spi_meta_amount := 100 |}
           (Sample.order 100 [Sample.line "5" None] (Some Sample.hayley) ["3"%string])
           (Sample.world [Sample.stripeMethod]
              [Sample.order 100 [Sample.line "5" None] (Some Sample.hayley)
                 ["3"%string]])) in
  jobs w'
  = [{| q_data := CreateSubscriptionsJob Sample.ctx "ORDER-1" "cus_7" "pm_1";
        q_retries := Some 0 |}] /\
  map o_state (orders w') = ["ArrangingPayment"%string] /\
  map (fun o => length (payments o)) (orders w') = [1].
Proof. repeat split; reflexivity. Qed.

Example sample_cancel_job :
  let w' :=
    snd (process Sample.env_failing_A
           (CancelSubscriptionsJob Sample.ctx "5") "job-1"
           (Sample.world [Sample.stripeMethod]
              [Sample.order 100
                 [Sample.line "5" (Some ["sub_A"; "sub_B"]%string)] None []])) in
  map h_subscriptionId (history w') = [Some "sub_A"; Some "sub_B"]%string /\
  map h_valid (history w') = [false; true].
Proof. split; reflexivity. Qed.

(* ================================================================== *)
(** ** Provider-context resolution *)
(* ================================================================== *)

Lemma credentials_some (pm : PaymentMethod) (sc : StripeClient) :
  credentials pm = Some sc ->
  find_arg "apiKey" (handler_args (pm_handler pm)) = Some (apiKey sc) /\
  find_arg "webhookSecret" (handler_args (pm_handler pm)) = Some (webhookSecret sc) /\
  truthy (apiKey sc) = true /\ truthy (webhookSecret sc) = true.
Proof.
  unfold credentials.
  destruct (find_arg "apiKey" _) as [k|]; [|discriminate].
  destruct (find_arg "webhookSecret" _) as [s|]; [|discriminate].
  destruct (truthy k) eqn:Hk, (truthy s) eqn:Hs; simpl; try discriminate.
  intros [= <-]. simpl. auto.
Qed.

(** The outcome of [getStripeContext] once its query has answered. *)
Lemma getStripeContext_cases (E : Env) (ctx : RequestContext) (w : World) :
  fault E (trace w) (PaymentMethodFindAll (token (channel ctx))) = None ->
  match enabledStripeMethods E ctx w with
  | [] =>
      getStripeContext E ctx w =
      (Throw (UserInputError
                "No enabled payment method found with handler 'stripe-subscription'"),
       add_call (PaymentMethodFindAll (token (channel ctx))) w)
  | [pm] =>
      match credentials pm with
      | Some sc =>
          getStripeContext E ctx w =
          (Ok {| paymentMethod := pm; stripeClient := sc |},
           add_call (PaymentMethodFindAll (token (channel ctx))) w)
      | None =>
          exists msg w',
          getStripeContext E ctx w = (Throw (Error msg), w')
      end
  | _ :: _ :: _ =>
      getStripeContext E ctx w =
      (Throw (UserInputError
                "Multiple payment methods found with handler 'stripe-subscription', there should only be 1 per channel!"),
       add_call (PaymentMethodFindAll (token (channel ctx))) w)
  end.
Proof.
  intros Hq.
  unfold getStripeContext, paymentMethodService_findAll, request, gets, bind.
  rewrite Hq.
  change (enabledMethods ctx (add_call (PaymentMethodFindAll (token (channel ctx))) w))
    with (enabledMethods ctx w).
  fold (enabledStripeMethods E ctx w).
  destruct (enabledStripeMethods E ctx w) as [|pm [|pm' rest]]; try reflexivity.
  cbn [length Nat.ltb Nat.leb nth_error].
  unfold credentials.
  destruct (find_arg "apiKey" _) as [k|];
    [destruct (find_arg "webhookSecret" _) as [s|]|];
    try (unfold Logger_warn, modify, throw; now eauto).
  destruct (truthy k), (truthy s); simpl;
    unfold Logger_warn, modify, throw, ret; eauto.
Qed.

(** Whatever its outcome, [getStripeContext] makes one call, the query for
    payment methods, and leaves every store but the log alone. *)
Lemma getStripeContext_frame (E : Env) (ctx : RequestContext) (w : World) :
  let w' := snd (getStripeContext E ctx w) in
  trace w' = trace w ++ [PaymentMethodFindAll (token (channel ctx))] /\
  orders w' = orders w /\ history w' = history w /\ jobs w' = jobs w /\
  drawn w' = drawn w /\ paymentMethods w' = paymentMethods w.
Proof.
  unfold getStripeContext, paymentMethodService_findAll, request, gets, bind.
  destruct (fault E (trace w) _); [simpl; auto 10|].
  cbn [trace add_call paymentMethods].
  destruct (1 <? _); [simpl; auto 10|].
  destruct (nth_error _ 0) as [pm|]; [|simpl; auto 10].
  destruct (find_arg "apiKey" _) as [k|];
    [destruct (find_arg "webhookSecret" _) as [s|]|];
    try (simpl; now auto 10).
  destruct (negb (truthy k) || negb (truthy s)); simpl; auto 10.
Qed.

(** C1 (as amended).  Once the query for the channel's payment methods has
    answered: with no or with several enabled stripe-subscription methods,
    resolution fails with a user-input error; with exactly one, it returns
    that method and a client holding its API key and webhook secret when
    both are configured and non-empty, and otherwise fails with a plain
    error, which is not a user-input error. *)
Theorem getStripeContext_resolution (E : Env) (ctx : RequestContext) (w : World) :
  fault E (trace w) (PaymentMethodFindAll (token (channel ctx))) = None ->
  (length (enabledStripeMethods E ctx w) <> 1 ->
   exists msg,
     fst (getStripeContext E ctx w) = Throw (UserInputError msg)) /\
  (forall pm,
     enabledStripeMethods E ctx w = [pm] ->
     match credentials pm with
     | Some sc =>
         fst (getStripeContext E ctx w) =
         Ok {| paymentMethod := pm; stripeClient := sc |} /\
         find_arg "apiKey" (handler_args (pm_handler pm)) = Some (apiKey sc) /\
         find_arg "webhookSecret" (handler_args (pm_handler pm))
         = Some (webhookSecret sc)
     | None =>
         exists msg, fst (getStripeContext E ctx w) = Throw (Error msg)
     end).
Proof.
  intros Hq. pose proof (getStripeContext_cases E ctx w Hq) as Hc.
  split.
  - intros Hlen.
    destruct (enabledStripeMethods E ctx w) as [|pm [|pm' rest]].
    + rewrite Hc. simpl. eauto.
    + simpl in Hlen. congruence.
    + rewrite Hc. simpl. eauto.
  - intros pm Hone. rewrite Hone in Hc.
    destruct (credentials pm) as [sc|] eqn:Hcred.
    + rewrite Hc. simpl.
      destruct (credentials_some pm sc Hcred) as (Hk & Hs & _). auto.
    + destruct Hc as (msg & w' & Hc). rewrite Hc. simpl. eauto.
Qed.

Lemma getStripeContext_resolution_witness :
  fst (getStripeContext Sample.env Sample.ctx
         (Sample.world [Sample.stripeMethod] [])) =
  Ok {| paymentMethod := Sample.stripeMethod;
        stripeClient := {| webhookSecret := "whsec_1"; apiKey := "sk_test_1" |} |}
  /\ (exists msg,
        fst (getStripeContext Sample.env Sample.ctx (Sample.world [] [])) =
        Throw (UserInputError msg)).
Proof.
  split.
  - destruct (getStripeContext_resolution Sample.env Sample.ctx
                (Sample.world [Sample.stripeMethod] []) eq_refl) as [_ H].
    exact (proj1 (H Sample.stripeMethod eq_refl)).
  - destruct (getStripeContext_resolution Sample.env Sample.ctx
                (Sample.world [] []) eq_refl) as [H _].
    apply H. simpl. discriminate.
Defined.

(** C1 as stated fails: a channel whose only enabled stripe-subscription
    method has no API key configured does not resolve, although no
    collaborator rejects anything. *)
Lemma getStripeContext_single_method_unresolved :
  ~ (forall (E : Env) (ctx : RequestContext) (w : World),
       faultless E ->
       (length (enabledStripeMethods E ctx w) <> 1 ->
        exists msg, fst (getStripeContext E ctx w) = Throw (UserInputError msg)) /\
       (length (enabledStripeMethods E ctx w) = 1 ->
        exists sc, fst (getStripeContext E ctx w) = Ok sc)).
Proof.
  intros H.
  destruct (H Sample.env Sample.ctx (Sample.world [Sample.bareMethod] [])
              (fun _ _ => eq_refl)) as [_ H1].
  destruct (H1 eq_refl) as [sc Hsc].
  discriminate Hsc.
Qed.

(* ================================================================== *)
(** ** The payment-intent-succeeded webhook *)
(* ================================================================== *)

(** Without a customer identifier the handler is its first three
    statements. *)
Lemma handlePaymentIntentSucceeded_no_customer_run
  (E : Env) (ctx : RequestContext) (object : StripePaymentIntent)
  (order : Order) :
  truthy_opt (spi_customer object) = false ->
  handlePaymentIntentSucceeded E ctx object order =
  (getStripeContext E ctx ;;
   logHistoryEntry E ctx (o_id order) ""
     (Some (ErrString
              "No customer ID found in incoming webhook. Can not create subscriptions for this order."))
     None None ;;
   throw (Error ("No customer found in webhook data for order "
                   ++ o_code order)%string)).
Proof.
  intros Hcust. unfold handlePaymentIntentSucceeded.
  destruct (spi_customer object) as [c|]; [|reflexivity].
  cbn in Hcust. rewrite Hcust. reflexivity.
Qed.

(** C2.  A payment-intent-succeeded payload without a customer identifier
    makes [handlePaymentIntentSucceeded] throw, whatever the collaborators
    answer, and among the calls it made there is neither a state transition
    nor a payment settlement; the stored orders are untouched. *)
Theorem handlePaymentIntentSucceeded_without_customer
  (E : Env) (ctx : RequestContext) (object : StripePaymentIntent)
  (order : Order) (w : World) :
  truthy_opt (spi_customer object) = false ->
  exists e tr,
    fst (handlePaymentIntentSucceeded E ctx object order w) = Throw e /\
    calls_of (handlePaymentIntentSucceeded E ctx object order) w tr /\
    forallb (fun c => negb (isTransitionOrPayment c)) tr = true /\
    orders (snd (handlePaymentIntentSucceeded E ctx object order w)) = orders w.
Proof.
  intros Hcust. unfold calls_of.
  rewrite (handlePaymentIntentSucceeded_no_customer_run E ctx object order Hcust).
  unfold bind at 1 3 5.
  pose proof (getStripeContext_frame E ctx w) as (Htr & Hord & _).
  destruct (getStripeContext E ctx w) as [[sc|e] w1]; cbn [snd] in Htr, Hord.
  - unfold_service. on_fault; cbn; rewrite Htr, <- app_assoc;
      eexists; eexists; repeat split; try reflexivity; auto.
  - exists e, [PaymentMethodFindAll (token (channel ctx))].
    cbn. auto.
Qed.

Lemma handlePaymentIntentSucceeded_without_customer_witness :
  exists e,
    fst (handlePaymentIntentSucceeded Sample.env Sample.ctx
           {| spi_id := "pi_1"; spi_customer := None;
              spi_payment_method := "pm_1"; spi_meta_amount := 100 |}
           (Sample.order 100 [] None [])
           (Sample.world [Sample.stripeMethod] [Sample.order 100 [] None []]))
    = Throw e.
Proof.
  destruct (handlePaymentIntentSucceeded_without_customer Sample.env Sample.ctx
              {| spi_id := "pi_1"; spi_customer := None;
                 spi_payment_method := "pm_1"; spi_meta_amount := 100 |}
              (Sample.order 100 [] None [])
              (Sample.world [Sample.stripeMethod] [Sample.order 100 [] None []])
              eq_refl) as (e & tr & He & _).
  exists e. exact He.
Defined.

(** A job enqueued without retries is attempted once: the worker's run is
    the [process] callback's run, and what that throws is final. *)
Lemma work_without_retries (E : Env) (j : QueuedJob) (id : ID) :
  q_retries j = Some 0 -> work E j id = process E (q_data j) id.
Proof. intros H. unfold work, retriesOf. now rewrite H. Qed.

(** C4.  Whatever the collaborators answer, every request
    [handlePaymentIntentSucceeded] makes to the job queue carries a
    create-subscriptions job and the option [retries: 0]; every job it leaves
    in the queue has zero retries, so the worker attempts it once and a throw
    of the attempt is final.  When the provider context resolves and the
    payload names a customer, that request is made, and the job is in the
    queue unless the queue rejected it. *)
Theorem handlePaymentIntentSucceeded_enqueues_without_retries
  (E : Env) (ctx : RequestContext) (object : StripePaymentIntent)
  (order : Order) (w : World) :
  exists tr added,
    trace (snd (handlePaymentIntentSucceeded E ctx object order w))
    = trace w ++ tr /\
    jobs (snd (handlePaymentIntentSucceeded E ctx object order w))
    = jobs w ++ added /\
    (forall d r,
       In (JobQueueAdd d r) tr ->
       action d = "createSubscriptionsForOrder"%string /\ r = Some 0) /\
    (forall j,
       In j added ->
       action (q_data j) = "createSubscriptionsForOrder"%string /\
       q_retries j = Some 0 /\
       forall id, work E j id = process E (q_data j) id) /\
    (forall sc w1 c,
       getStripeContext E ctx w = (Ok sc, w1) ->
       spi_customer object = Some c ->
       truthy c = true ->
       let job :=
         CreateSubscriptionsJob (serialize ctx) (o_code order) c
           (spi_payment_method object) in
       In (JobQueueAdd job (Some 0)) tr /\
       (fault E (trace w1) (JobQueueAdd job (Some 0)) = None ->
        added = [{| q_data := job; q_retries := Some 0 |}])).
Proof.
  destruct (handlePaymentIntentSucceeded E ctx object order w) as [out w']
    eqn:Hrun.
  cbn [snd].
  unfold handlePaymentIntentSucceeded in Hrun. unfold bind at 1 in Hrun.
  pose proof (getStripeContext_frame E ctx w) as (Htr & _ & _ & Hjobs & _).
  destruct (getStripeContext E ctx w) as [[sc|e] w1]; cbn [snd] in Htr, Hjobs.
  2:{ injection Hrun as <- <-.
      exists [PaymentMethodFindAll (token (channel ctx))], [].
      rewrite app_nil_r.
      repeat split; auto; intros; cbn [In] in *; try tauto; intuition congruence. }
  unfold_service_in Hrun.
  run_in Hrun.
  all: injection Hrun as <- <-.
  all: cbn_world.
  all: rewrite ?Htr, ?Hjobs, <- ?app_assoc.
  all: eexists; eexists.
  all: (split; [reflexivity|]).
  all: (split; [first [reflexivity | symmetry; apply app_nil_r]|]).
  all: repeat split; intros; cbn [app In] in *;
    repeat match goal with
      | H : _ \/ _ |- _ => destruct H
      | H : False |- _ => destruct H
      | H : JobQueueAdd _ _ = JobQueueAdd _ _ |- _ => injection H as <- <-
      | H : (_, _) = (_, _) |- _ => injection H as <- <-
      | H : Some _ = Some _ |- _ => injection H as <-
      | H : _ = JobQueueAdd _ _ |- _ => discriminate H
      | H : {| q_data := _ |} = ?j |- _ => subst j
      | H1 : truthy ?s = true, H2 : negb (truthy ?s) = true |- _ =>
          rewrite H1 in H2; discriminate H2
      end;
    cbn; auto; try congruence; try tauto.
Qed.

(* ================================================================== *)
(** ** Cancelling the subscriptions of an order line *)
(* ================================================================== *)

(** C9.  When the order of the line is found and the line's list of
    subscription identifiers is absent or empty,
    [cancelSubscriptionForOrderLine] returns normally; its only call is the
    lookup of the order, so the provider is not called, and the audit
    history, the stored orders with their lines, and the job queue are as
    before. *)
Theorem cancelSubscriptionForOrderLine_without_identifiers
  (E : Env) (ctx : RequestContext) (orderLineId : ID) (w : World)
  (order : Order) (line : OrderLine) :
  fault E (trace w) (FindOneByOrderLineId orderLineId ["lines"%string]) = None ->
  orderOfLine orderLineId w = Some order ->
  lineOf orderLineId order = Some line ->
  subscriptionIds line = None \/ subscriptionIds line = Some [] ->
  fst (cancelSubscriptionForOrderLine E ctx orderLineId w) = Ok tt /\
  calls_of (cancelSubscriptionForOrderLine E ctx orderLineId) w
    [FindOneByOrderLineId orderLineId ["lines"%string]] /\
  history (snd (cancelSubscriptionForOrderLine E ctx orderLineId w)) = history w /\
  orders (snd (cancelSubscriptionForOrderLine E ctx orderLineId w)) = orders w /\
  jobs (snd (cancelSubscriptionForOrderLine E ctx orderLineId w)) = jobs w.
Proof.
  intros Hq Horder Hline Hids. unfold calls_of.
  destruct (cancelSubscriptionForOrderLine E ctx orderLineId w) as [out w']
    eqn:Hrun.
  unfold cancelSubscriptionForOrderLine in Hrun.
  unfold orderService_findOneByOrderLineId, request, gets in Hrun.
  unfold bind at 1 2 in Hrun. rewrite Hq in Hrun.
  change (orderOfLine orderLineId (add_call ?c w))
    with (orderOfLine orderLineId w) in Hrun.
  rewrite Horder in Hrun. cbn zeta in Hrun. rewrite Hline in Hrun.
  assert (Hnone : idsOf (Some line) = []).
  { unfold idsOf. destruct Hids as [-> | ->]; reflexivity. }
  rewrite Hnone in Hrun.
  unfold Logger_info, modify in Hrun.
  injection Hrun as <- <-. cbn. auto.
Qed.

Lemma cancelSubscriptionForOrderLine_without_identifiers_witness :
  fst (cancelSubscriptionForOrderLine Sample.env Sample.ctx "5"
         (Sample.world [Sample.stripeMethod]
            [Sample.order 100 [Sample.line "5" (Some [])] None []]))
  = Ok tt.
Proof.
  apply (cancelSubscriptionForOrderLine_without_identifiers
           Sample.env Sample.ctx "5"
           (Sample.world [Sample.stripeMethod]
              [Sample.order 100 [Sample.line "5" (Some [])] None []])
           (Sample.order 100 [Sample.line "5" (Some [])] None [])
           (Sample.line "5" (Some []))
           eq_refl eq_refl eq_refl (or_intror eq_refl)).
Defined.

(** C3.  Take an order line whose stored identifiers are [A; B], a provider
    that rejects (with [e]) the cancellation of [A] and accepts that of [B],
    and collaborators that otherwise answer.  Then
    [cancelSubscriptionForOrderLine] returns normally; the provider was asked
    to cancel [A] and then [B]; and the audit history gained exactly two
    entries, a failure for [A] followed by a success for [B]. *)
Theorem cancelSubscriptionForOrderLine_partial_failure
  (E : Env) (ctx : RequestContext) (orderLineId : ID) (w : World)
  (order : Order) (line : OrderLine) (A B : string) (e : JsError)
  (pm : PaymentMethod) (sc : StripeClient) :
  (forall tr c, isSubscriptionsUpdate c = false -> fault E tr c = None) ->
  (forall tr client, fault E tr (StripeSubscriptionsUpdate client A) = Some e) ->
  (forall tr client, fault E tr (StripeSubscriptionsUpdate client B) = None) ->
  orderOfLine orderLineId w = Some order ->
  lineOf orderLineId order = Some line ->
  subscriptionIds line = Some [A; B] ->
  enabledStripeMethods E ctx w = [pm] ->
  credentials pm = Some sc ->
  fst (cancelSubscriptionForOrderLine E ctx orderLineId w) = Ok tt /\
  history (snd (cancelSubscriptionForOrderLine E ctx orderLineId w))
  = history w ++ [failedEntry order A e; cancelledEntry order B] /\
  calls_of (cancelSubscriptionForOrderLine E ctx orderLineId) w
    [ FindOneByOrderLineId orderLineId ["lines"%string];
      Hydrate orderLineId ["order"%string];
      PaymentMethodFindAll (token (channel ctx));
      StripeSubscriptionsUpdate sc A;
      CreateHistoryEntryForOrder (failedEntry order A e);
      StripeSubscriptionsUpdate sc B;
      CreateHistoryEntryForOrder (cancelledEntry order B) ].
Proof.
  intros Hrest HA HB Horder Hline Hids Hpm Hcred. unfold calls_of.
  destruct (cancelSubscriptionForOrderLine E ctx orderLineId w) as [out w']
    eqn:Hrun.
  unfold cancelSubscriptionForOrderLine in Hrun.
  unfold orderService_findOneByOrderLineId, entityHydrator_hydrate,
    request, gets in Hrun.
  unfold bind at 1 2 in Hrun.
  rewrite Hrest in Hrun by reflexivity.
  change (orderOfLine orderLineId (add_call ?c w))
    with (orderOfLine orderLineId w) in Hrun.
  rewrite Horder in Hrun. cbn zeta in Hrun. rewrite Hline in Hrun.
  unfold idsOf in Hrun. rewrite Hids in Hrun.
  unfold bind at 1 in Hrun.
  rewrite Hrest in Hrun by reflexivity.
  unfold bind at 1 in Hrun.
  match type of Hrun with
  | context [getStripeContext E ctx ?w1] =>
      pose proof (getStripeContext_cases E ctx w1
                    (Hrest (trace w1) (PaymentMethodFindAll _) eq_refl)) as Hsc;
      change (enabledStripeMethods E ctx w1) with (enabledStripeMethods E ctx w)
        in Hsc
  end.
  rewrite Hpm, Hcred in Hsc. rewrite Hsc in Hrun. clear Hsc.
  cbn [stripeClient forOf] in Hrun.
  unfold cancelOne in Hrun. unfold_service_in Hrun.
  repeat (first [ rewrite HA in Hrun | rewrite HB in Hrun
                 | rewrite Hrest in Hrun by reflexivity ];
          cbn [fst snd] in Hrun).
  injection Hrun as <- <-.
  cbn [fst snd]. cbn_world. rewrite <- !app_assoc. cbn [app].
  unfold failedEntry, cancelledEntry. auto.
Qed.

Lemma cancelSubscriptionForOrderLine_partial_failure_witness :
  fst (cancelSubscriptionForOrderLine Sample.env_failing_A Sample.ctx "5"
         (Sample.world [Sample.stripeMethod]
            [Sample.order 100 [Sample.line "5" (Some ["sub_A"; "sub_B"]%string)]
               None []]))
  = Ok tt /\
  map h_valid
    (history
       (snd (cancelSubscriptionForOrderLine Sample.env_failing_A Sample.ctx "5"
               (Sample.world [Sample.stripeMethod]
                  [Sample.order 100
                     [Sample.line "5" (Some ["sub_A"; "sub_B"]%string)]
                     None []]))))
  = [false; true].
Proof.
  destruct (cancelSubscriptionForOrderLine_partial_failure
              Sample.env_failing_A Sample.ctx "5"
              (Sample.world [Sample.stripeMethod]
                 [Sample.order 100
                    [Sample.line "5" (Some ["sub_A"; "sub_B"]%string)] None []])
              (Sample.order 100
                 [Sample.line "5" (Some ["sub_A"; "sub_B"]%string)] None [])
              (Sample.line "5" (Some ["sub_A"; "sub_B"]%string))
              "sub_A" "sub_B"
              (ForeignError "StripeError" "No such subscription")
              Sample.stripeMethod
              {| webhookSecret := "whsec_1"; apiKey := "sk_test_1" |})
    as (Hout & Hhist & _).
  - intros tr c Hc. destruct c; try reflexivity. discriminate Hc.
  - intros tr client. reflexivity.
  - intros tr client. reflexivity.
  - reflexivity.
  - reflexivity.
  - reflexivity.
  - reflexivity.
  - reflexivity.
  - split; [exact Hout|]. rewrite Hhist. reflexivity.
Defined.

(* ================================================================== *)
(** ** The create-subscriptions job *)
(* ================================================================== *)

(** A lookup by code writes nothing. *)
Lemma findOneByCode_frame (E : Env) (ctx : RequestContext) (orderCode : string)
  (relations : list string) (w : World) :
  let r := orderService_findOneByCode E ctx orderCode relations w in
  history (snd r) = history w /\ orders (snd r) = orders w /\
  trace (snd r) = trace w ++ [FindOneByCode orderCode relations] /\
  (forall found, fst r = Ok found -> found = orderByCode orderCode w).
Proof.
  unfold orderService_findOneByCode, request, gets, bind.
  destruct (fault E (trace w) _); cbn; repeat split; auto.
  - intros found [=].
  - intros found [= <-]. reflexivity.
Qed.

(** While its body is a stub, [createSubscriptions] writes nothing either:
    its one call is the lookup of the order. *)
Lemma createSubscriptions_frame (E : Env) (ctx : RequestContext)
  (orderCode stripeCustomerId stripePaymentMethodId : string)
  (w w' : World) (out : Outcome unit) :
  createSubscriptions E ctx orderCode stripeCustomerId stripePaymentMethodId w
  = (out, w') ->
  history w' = history w /\ orders w' = orders w /\
  trace w' = trace w
             ++ [FindOneByCode orderCode
                   ["customer"; "lines"; "lines.productVariant"]%string].
Proof.
  unfold createSubscriptions. unfold bind.
  pose proof (findOneByCode_frame E ctx orderCode
                ["customer"; "lines"; "lines.productVariant"]%string w)
    as (Hh & Ho & Ht & _).
  destruct (orderService_findOneByCode E ctx orderCode _ w) as [[[o|]|e] w1];
    unfold tryCatch, ret, throw; cbn in *; intros [= <- <-]; auto.
Qed.

(** C8 (as amended).  A create-subscriptions job that fails is aborted and
    throws to the queue.  When the callback's own lookup of the order
    rejects, the rejection is thrown and nothing is written to the audit
    history.  When that lookup answers and [createSubscriptions] then
    throws: if the lookup had found no order, the error is rethrown and
    nothing is written; if it had found the order and the history service
    accepts the entry, an audit entry is written against the order and the
    error is rethrown; and if the history service rejects the entry, nothing
    is written and what is thrown is the rejection of the history service. *)
Theorem process_create_job_failure
  (E : Env) (sctx : SerializedRequestContext)
  (orderCode stripeCustomerId stripePaymentMethodId : string) (id : ID)
  (w : World) :
  let ctx := deserialize sctx in
  let data :=
    CreateSubscriptionsJob sctx orderCode stripeCustomerId stripePaymentMethodId in
  (forall e w1,
     orderService_findOneByCode E ctx orderCode [] w = (Throw e, w1) ->
     fst (process E data id w) = Throw e /\
     history (snd (process E data id w)) = history w) /\
  (forall found w1 e w2,
     orderService_findOneByCode E ctx orderCode [] w = (Ok found, w1) ->
     createSubscriptions E ctx orderCode stripeCustomerId stripePaymentMethodId w1
     = (Throw e, w2) ->
     match found with
     | Some o =>
         match fault E (trace w2)
                 (CreateHistoryEntryForOrder (creationFailedEntry o e)) with
         | None =>
             fst (process E data id w) = Throw e /\
             history (snd (process E data id w))
             = history w ++ [creationFailedEntry o e]
         | Some rejection =>
             fst (process E data id w) = Throw rejection /\
             history (snd (process E data id w)) = history w
         end
     | None =>
         fst (process E data id w) = Throw e /\
         history (snd (process E data id w)) = history w
     end).
Proof.
  cbn zeta.
  destruct (process E (CreateSubscriptionsJob sctx orderCode stripeCustomerId
                         stripePaymentMethodId) id w) as [out w'] eqn:Hrun.
  cbn [fst snd].
  unfold process in Hrun. cbn [job_ctx] in Hrun. unfold deserialize in *.
  unfold bind at 1 in Hrun.
  pose proof (findOneByCode_frame E sctx orderCode [] w) as (Hh1 & _).
  split.
  - intros e w1 Hlook. rewrite Hlook in Hrun, Hh1. cbn [snd] in Hh1.
    injection Hrun as <- <-. auto.
  - intros found w1 e w2 Hlook Hbody.
    rewrite Hlook in Hrun, Hh1. cbn [snd] in Hh1.
    pose proof (createSubscriptions_frame E sctx orderCode stripeCustomerId
                  stripePaymentMethodId w1 w2 _ Hbody) as (Hh2 & _).
    unfold tryCatch in Hrun. rewrite Hbody in Hrun.
    destruct found as [o|].
    + unfold_service_in Hrun. cbn_world in Hrun.
      unfold creationFailedEntry. cbn in Hrun |- *.
      destruct (fault E (trace w2) _) as [rejection|];
        injection Hrun as <- <-; cbn_world; rewrite Hh2, Hh1; auto.
    + unfold_service_in Hrun. injection Hrun as <- <-.
      cbn_world. rewrite Hh2, Hh1. auto.
Qed.

Lemma process_create_job_failure_witness :
  fst (process Sample.env_failing_lookup
         (CreateSubscriptionsJob Sample.ctx "ORDER-1" "cus_7" "pm_1") "job-1"
         (Sample.world [Sample.stripeMethod] [Sample.order 100 [] None []]))
  = Throw (ForeignError "QueryFailedError" "connection lost") /\
  history
    (snd (process Sample.env_failing_lookup
            (CreateSubscriptionsJob Sample.ctx "ORDER-1" "cus_7" "pm_1") "job-1"
            (Sample.world [Sample.stripeMethod] [Sample.order 100 [] None []])))
  = [creationFailedEntry (Sample.order 100 [] None [])
       (ForeignError "QueryFailedError" "connection lost")].
Proof.
  destruct (process_create_job_failure Sample.env_failing_lookup
              Sample.ctx "ORDER-1" "cus_7" "pm_1" "job-1"
              (Sample.world [Sample.stripeMethod] [Sample.order 100 [] None []]))
    as [_ H].
  exact (H (Some (Sample.order 100 [] None [])) _
           (ForeignError "QueryFailedError" "connection lost") _
           eq_refl eq_refl).
Defined.

(** C8 as stated fails: the job for an order code that no order carries
    throws, and no audit entry is written, although no collaborator rejects
    anything. *)
Lemma process_create_job_unknown_order_unaudited :
  ~ (forall (E : Env) (sctx : SerializedRequestContext)
       (orderCode stripeCustomerId stripePaymentMethodId : string) (id : ID)
       (w : World) (e : JsError),
       let run :=
         process E
           (CreateSubscriptionsJob sctx orderCode stripeCustomerId
              stripePaymentMethodId) id w in
       fst run = Throw e ->
       exists entry, history (snd run) = history w ++ [entry]).
Proof.
  intros H.
  destruct (H Sample.env Sample.ctx "ORDER-404"%string "cus_7"%string
              "pm_1"%string "job-1"%string
              (Sample.world [Sample.stripeMethod] [Sample.order 100 [] None []])
              (Error "Cannot find order with code ORDER-404") eq_refl)
    as [entry Hentry].
  discriminate Hentry.
Qed.

(* ================================================================== *)
(** ** Intent creation *)
(* ================================================================== *)

Lemma id_eqb_eq (a b : ID) : id_eqb a b = true -> a = b.
Proof. apply String.eqb_eq. Qed.

Lemma orderById_some (i : ID) (w : World) (o : Order) :
  orderById i w = Some o -> In o (orders w) /\ o_id o = i.
Proof.
  unfold orderById. intros H. apply find_some in H as [Hin Hid].
  split; [exact Hin | now apply id_eqb_eq].
Qed.

(** The active order is the stored order with its id. *)
Lemma activeOrderOf_stored (ctx : RequestContext) (w : World) (o : Order) :
  activeOrderOf ctx w = Some o -> orderById (o_id o) w = Some o.
Proof.
  unfold activeOrderOf.
  destruct (activeOrderId ctx) as [i|]; [|discriminate].
  destruct (orderById i w) as [o'|] eqn:Hfind; [|discriminate].
  destruct (o_active o'); [|discriminate].
  intros [= ->]. destruct (orderById_some _ _ _ Hfind) as [_ ->]. exact Hfind.
Qed.

Lemma In_update_order (i : ID) (f : Order -> Order) (os : list Order) (o : Order) :
  In o os -> o_id o = i -> In (f o) (update_order i f os).
Proof.
  intros Hin Hid. unfold update_order. apply in_map_iff.
  exists o. split; [|exact Hin].
  unfold id_eqb. rewrite Hid, String.eqb_refl. reflexivity.
Qed.

(** C10.  Take a session whose active order has a zero tax-inclusive total
    and fails one of the validations that follow (no lines, no customer, or
    no shipping line), with a framework that answers the three calls made.
    Then [createIntent] throws a user-input error, and the store it leaves
    behind holds the order with the verification fee added: the surcharge
    is not undone by the failure. *)
Theorem createIntent_failure_keeps_surcharge
  (E : Env) (ctx : RequestContext) (w : World) (order : Order) :
  fault E (trace w) (GetActiveOrder (activeOrderId ctx)) = None ->
  (forall tr, fault E tr (AddSurchargeToOrder (o_id order) verificationFee) = None) ->
  (forall tr rel, fault E tr (Hydrate (o_id order) rel) = None) ->
  activeOrderOf ctx w = Some order ->
  totalWithTax order = 0%Z ->
  lines order = [] \/ customer order = None \/ shippingLines order = [] ->
  exists msg total,
    fst (createIntent E ctx w) = Throw (UserInputError msg) /\
    orders (snd (createIntent E ctx w))
    = ordersWithFee E (trace w ++ [GetActiveOrder (activeOrderId ctx)])
        (o_id order) (orders w) /\
    In (with_surcharge verificationFee total order)
       (orders (snd (createIntent E ctx w))) /\
    surcharges (with_surcharge verificationFee total order)
    = surcharges order ++ [verificationFee].
Proof.
  intros Hq Hadd Hhyd Hactive Hzero Hinvalid.
  pose proof (activeOrderOf_stored ctx w order Hactive) as Hstored.
  destruct (orderById_some _ _ _ Hstored) as [Hin _].
  destruct (createIntent E ctx w) as [out w'] eqn:Hrun.
  cbn [fst snd].
  unfold createIntent in Hrun.
  unfold activeOrderService_getActiveOrder, request, gets in Hrun.
  unfold bind at 1 2 in Hrun. rewrite Hq in Hrun.
  change (activeOrderOf ctx (add_call ?c w)) with (activeOrderOf ctx w) in Hrun.
  rewrite Hactive in Hrun.
  rewrite Hzero in Hrun. cbn [Z.eqb] in Hrun.
  unfold orderService_addSurchargeToOrder, entityHydrator_hydrate,
    ask, request, gets, modify in Hrun.
  unfold bind at 1 2 3 in Hrun. rewrite Hadd in Hrun.
  change (orderById (o_id order) (add_call ?c (add_call ?d w)))
    with (orderById (o_id order) w) in Hrun.
  rewrite Hstored in Hrun.
  unfold bind at 1 2 in Hrun. unfold ret at 1 in Hrun.
  cbn [o_id with_surcharge] in Hrun.
  rewrite Hhyd in Hrun.
  cbn [lines customer shippingLines with_surcharge] in Hrun.
  exists (match lines order, customer order with
          | [], _ => "Cannot create payment intent for empty order"
          | _, None => "Cannot create payment intent for order without customer"
          | _, _ => "Cannot create payment intent for order without shippingMethod"
          end)%string.
  exists (repricedTotal E (trace w ++ [GetActiveOrder (activeOrderId ctx)])
            order verificationFee).
  assert (Hin' :
    In (with_surcharge verificationFee
          (repricedTotal E (trace w ++ [GetActiveOrder (activeOrderId ctx)])
             order verificationFee) order)
       (ordersWithFee E (trace w ++ [GetActiveOrder (activeOrderId ctx)])
          (o_id order) (orders w))).
  { unfold ordersWithFee.
    apply (In_update_order (o_id order)
             (fun o => with_surcharge verificationFee
                         (repricedTotal E _ o verificationFee) o)
             (orders w) order Hin eq_refl). }
  destruct (lines order) as [|l ls].
  - unfold throw in Hrun. injection Hrun as <- <-. cbn_world. auto.
  - destruct (customer order) as [c|].
    + destruct (shippingLines order) as [|sl sls].
      * unfold throw in Hrun. injection Hrun as <- <-. cbn_world. auto.
      * destruct Hinvalid as [H | [H | H]]; discriminate H.
    + unfold throw in Hrun. injection Hrun as <- <-. cbn_world. auto.
Qed.

Lemma createIntent_failure_keeps_surcharge_witness :
  exists msg total,
    fst (createIntent Sample.env Sample.ctx
           (Sample.world [Sample.stripeMethod] [Sample.order 0 [] None []]))
    = Throw (UserInputError msg) /\
    In (with_surcharge verificationFee total (Sample.order 0 [] None []))
       (orders (snd (createIntent Sample.env Sample.ctx
                       (Sample.world [Sample.stripeMethod]
                          [Sample.order 0 [] None []])))).
Proof.
  destruct (createIntent_failure_keeps_surcharge Sample.env Sample.ctx
              (Sample.world [Sample.stripeMethod] [Sample.order 0 [] None []])
              (Sample.order 0 [] None [])
              eq_refl (fun _ => eq_refl) (fun _ _ => eq_refl) eq_refl eq_refl
              (or_introl eq_refl))
    as (msg & total & Hthrow & _ & Hin & _).
  exists msg, total. split; [exact Hthrow | exact Hin].
Defined.

Lemma surcharges_update_customer (i : ID) (sc : string) (os : list Order) :
  map surcharges (update_customer i sc os) = map surcharges os.
Proof.
  unfold update_customer. rewrite map_map. apply map_ext. intros o.
  destruct (customer o) as [c|]; [|reflexivity].
  destruct (id_eqb (c_id c) i); reflexivity.
Qed.

Lemma surcharges_ordersWithFee (E : Env) (tr : list Call) (i : ID)
  (os : list Order) :
  map surcharges (ordersWithFee E tr i os)
  = map (fun o => if id_eqb (o_id o) i
                  then surcharges o ++ [verificationFee]
                  else surcharges o) os.
Proof.
  unfold ordersWithFee, update_order. rewrite map_map. apply map_ext.
  intros o. destruct (id_eqb (o_id o) i); reflexivity.
Qed.

(** C5.  Take a session with an active order and a framework that answers
    the query for it.  If the order's tax-inclusive total is zero, the next
    call [createIntent] makes is the request to add the verification fee,
    and none of its later calls, among which any request for a provider
    intent, adds a surcharge; once the fee is accepted the stored order has
    exactly that one surcharge more, however the call ends.  If the total is
    not zero, no call adds a surcharge and the surcharges in the store are
    as before. *)
Theorem createIntent_surcharge
  (E : Env) (ctx : RequestContext) (w : World) (order : Order) :
  fault E (trace w) (GetActiveOrder (activeOrderId ctx)) = None ->
  activeOrderOf ctx w = Some order ->
  exists tr,
    calls_of (createIntent E ctx) w (GetActiveOrder (activeOrderId ctx) :: tr) /\
    if Z.eqb (totalWithTax order) 0 then
      exists post,
        tr = AddSurchargeToOrder (o_id order) verificationFee :: post /\
        forallb (fun c => negb (isSurchargeCall c)) post = true /\
        (fault E (trace w ++ [GetActiveOrder (activeOrderId ctx)])
               (AddSurchargeToOrder (o_id order) verificationFee) = None ->
         map surcharges (orders (snd (createIntent E ctx w)))
         = map (fun o => if id_eqb (o_id o) (o_id order)
                         then surcharges o ++ [verificationFee]
                         else surcharges o)
               (orders w))
    else
      forallb (fun c => negb (isSurchargeCall c)) tr = true /\
      map surcharges (orders (snd (createIntent E ctx w)))
      = map surcharges (orders w).
Proof.
  intros Hq Hactive.
  pose proof (activeOrderOf_stored ctx w order Hactive) as Hstored.
  unfold calls_of.
  destruct (createIntent E ctx w) as [out w'] eqn:Hrun.
  cbn [fst snd].
  unfold createIntent in Hrun.
  unfold activeOrderService_getActiveOrder, request, gets in Hrun.
  unfold bind at 1 2 in Hrun. rewrite Hq in Hrun.
  change (activeOrderOf ctx (add_call ?c w)) with (activeOrderOf ctx w) in Hrun.
  rewrite Hactive in Hrun.
  destruct (Z.eqb (totalWithTax order) 0).
  - unfold orderService_addSurchargeToOrder, ask in Hrun.
    unfold bind at 1 2 in Hrun.
    cbn [trace add_call] in Hrun.
    destruct (fault E (trace w ++ [GetActiveOrder (activeOrderId ctx)])
                (AddSurchargeToOrder (o_id order) verificationFee)) as [e|].
    { injection Hrun as <- <-. cbn_world. rewrite <- app_assoc. cbn [app].
      eexists. split; [reflexivity|].
      exists []. repeat split. discriminate. }
    unfold gets in Hrun. unfold bind at 1 in Hrun.
    change (orderById (o_id order) (add_call ?c (add_call ?d w)))
      with (orderById (o_id order) w) in Hrun.
    rewrite Hstored in Hrun.
    unfold getStripeContext, paymentMethodService_findAll in Hrun.
    unfold_service_in Hrun.
    run_in Hrun.
    all: injection Hrun as <- <-.
    all: cbn_world; rewrite <- ?app_assoc; cbn [app].
    all: eexists; (split; [reflexivity|]).
    all: eexists; (split; [reflexivity|]).
    all: (split; [reflexivity|]).
    all: intros _; rewrite ?surcharges_update_customer.
    all: apply surcharges_ordersWithFee.
  - unfold getStripeContext, paymentMethodService_findAll in Hrun.
    unfold_service_in Hrun.
    run_in Hrun.
    all: injection Hrun as <- <-.
    all: cbn_world; rewrite <- ?app_assoc; cbn [app].
    all: eexists; (split; [reflexivity|]).
    all: (split; [reflexivity|]).
    all: rewrite ?surcharges_update_customer.
    all: reflexivity.
Qed.

Lemma createIntent_surcharge_witness :
  exists post,
    calls_of (createIntent Sample.env Sample.ctx)
      (Sample.world [Sample.stripeMethod] [Sample.freeOrder])
      (GetActiveOrder (Some "1"%string)
         :: AddSurchargeToOrder "1" verificationFee :: post) /\
    forallb (fun c => negb (isSurchargeCall c)) post = true /\
    map surcharges
      (orders (snd (createIntent Sample.env Sample.ctx
                      (Sample.world [Sample.stripeMethod] [Sample.freeOrder]))))
    = [[verificationFee]].
Proof.
  destruct (createIntent_surcharge Sample.env Sample.ctx
              (Sample.world [Sample.stripeMethod] [Sample.freeOrder])
              Sample.freeOrder eq_refl eq_refl) as (tr & Hcalls & H).
  cbn [Sample.freeOrder Sample.order totalWithTax Z.eqb] in H.
  destruct H as (post & -> & Hpost & Hstore).
  exists post. split; [exact Hcalls|]. split; [exact Hpost|].
  rewrite (Hstore eq_refl). reflexivity.
Defined.

(* ================================================================== *)
(** ** The correlation hash of subscription lines *)
(* ================================================================== *)

Lemma stored_lines_update_line_hash (i : ID) (h : string) (os : list Order) :
  flat_map lines (update_line_hash i h os)
  = map (fun l => if id_eqb (ol_id l) i then with_hash h l else l)
        (flat_map lines os).
Proof.
  induction os as [|o os IH]; [reflexivity|].
  cbn [update_line_hash map flat_map] in *.
  rewrite map_app. f_equal. exact IH.
Qed.

(** C6.  Let the random source return non-empty identifiers and never the
    same one twice, and let every hash in the store have been drawn from
    it.  On a [created] event for a line the strategy classifies as a
    subscription, with a repository that accepts the update, the handler
    stores the next identifier [h] of the source as the hash of the line:
    [h] is not empty, every stored line with the id of the event's line has
    hash [h], no stored line with another id has it, and no stored line had
    it before; the invariant on the store holds again.  On an event of any
    other type, or for a line that is not a subscription, the handler
    returns without touching the world. *)
Theorem onOrderLineEvent_hash (E : Env) (event : OrderLineEvent) (w : World) :
  (forall n, randomUUID E n <> ""%string) ->
  (forall m n, randomUUID E m = randomUUID E n -> m = n) ->
  hashes_drawn E w ->
  (ole_type event = created ->
   isSubscription E (ole_ctx event) (ole_orderLine event) = true ->
   fault E (trace w)
     (OrderLineUpdate (ol_id (ole_orderLine event)) (randomUUID E (drawn w)))
   = None ->
   let h := randomUUID E (drawn w) in
   let w' := snd (onOrderLineEvent E event w) in
   fst (onOrderLineEvent E event w) = Ok tt /\
   h <> ""%string /\
   (forall l, In l (stored_lines w) -> subscriptionHash l <> Some h) /\
   (forall l, In l (stored_lines w') ->
      ol_id l = ol_id (ole_orderLine event) -> subscriptionHash l = Some h) /\
   (forall l, In l (stored_lines w') ->
      ol_id l <> ol_id (ole_orderLine event) -> subscriptionHash l <> Some h) /\
   map ol_id (stored_lines w') = map ol_id (stored_lines w) /\
   hashes_drawn E w') /\
  (ole_type event <> created \/
   isSubscription E (ole_ctx event) (ole_orderLine event) = false ->
   onOrderLineEvent E event w = (Ok tt, w)).
Proof.
  intros Hnonempty Hinj Hinv. split.
  - intros Htype Hsub Hq. cbn zeta.
    assert (Hfresh : forall l, In l (stored_lines w) ->
                               subscriptionHash l <> Some (randomUUID E (drawn w))).
    { intros l Hin Hh. destruct (Hinv l _ Hin Hh) as (n & Hlt & Heq).
      apply Hinj in Heq. subst n. exact (Nat.lt_irrefl _ Hlt). }
    unfold onOrderLineEvent. rewrite Htype, Hsub. cbn [andb].
    unfold crypto_randomUUID, orderLineRepository_update, request, modify, bind.
    cbn [trace add_drawn drawn]. rewrite Hq. cbn [fst snd].
    unfold stored_lines. cbn_world.
    rewrite stored_lines_update_line_hash.
    set (i := ol_id (ole_orderLine event)).
    set (h := randomUUID E (drawn w)).
    fold (stored_lines w).
    repeat split.
    + apply Hnonempty.
    + exact Hfresh.
    + intros l Hin Hid. apply in_map_iff in Hin as (l0 & <- & Hin0).
      destruct (id_eqb (ol_id l0) i) eqn:Hi; [reflexivity|].
      unfold id_eqb in Hi. rewrite Hid, String.eqb_refl in Hi. discriminate.
    + intros l Hin Hid. apply in_map_iff in Hin as (l0 & <- & Hin0).
      destruct (id_eqb (ol_id l0) i) eqn:Hi.
      * apply id_eqb_eq in Hi. cbn in Hid. contradiction.
      * apply Hfresh. exact Hin0.
    + rewrite map_map. apply map_ext. intros l.
      destruct (id_eqb (ol_id l) i); reflexivity.
    + intros l h' Hin Hh. unfold stored_lines in Hin. cbn_world in Hin.
      rewrite stored_lines_update_line_hash in Hin.
      apply in_map_iff in Hin as (l0 & <- & Hin0).
      destruct (id_eqb (ol_id l0) i).
      * cbn in Hh. injection Hh as <-. exists (drawn w).
        split; [apply Nat.lt_succ_diag_r|reflexivity].
      * destruct (Hinv l0 h' Hin0 Hh) as (n & Hlt & Heq).
        exists n. split; [apply Nat.lt_lt_succ_r; exact Hlt|exact Heq].
  - intros Hother. unfold onOrderLineEvent.
    destruct Hother as [Htype | Hsub].
    + destruct (ole_type event); try reflexivity. contradiction.
    + rewrite Hsub, andb_false_r. reflexivity.
Qed.

Lemma tally_nonempty (n : nat) : Sample.tally n <> ""%string.
Proof. destruct n; discriminate. Qed.

Lemma tally_injective (m n : nat) : Sample.tally m = Sample.tally n -> m = n.
Proof.
  revert n. induction m as [|m IH]; intros [|n] H; cbn in H;
    try reflexivity; try discriminate.
  injection H as H. f_equal. now apply IH.
Qed.

Lemma onOrderLineEvent_hash_witness :
  fst (onOrderLineEvent Sample.env
         {| ole_ctx := Sample.ctx; ole_type := created;
            ole_orderLine := Sample.line "5" None |}
         (Sample.world [] [Sample.order 100 [Sample.line "5" None] None []]))
  = Ok tt /\
  forall l,
    In l (stored_lines
            (snd (onOrderLineEvent Sample.env
                    {| ole_ctx := Sample.ctx; ole_type := created;
                       ole_orderLine := Sample.line "5" None |}
                    (Sample.world []
                       [Sample.order 100 [Sample.line "5" None] None []])))) ->
    ol_id l = "5"%string ->
    subscriptionHash l = Some "u"%string.
Proof.
  destruct (onOrderLineEvent_hash Sample.env
              {| ole_ctx := Sample.ctx; ole_type := created;
                 ole_orderLine := Sample.line "5" None |}
              (Sample.world [] [Sample.order 100 [Sample.line "5" None] None []])
              tally_nonempty tally_injective) as [H _].
  - intros l h [<- | []] Hh. discriminate Hh.
  - destruct (H eq_refl eq_refl eq_refl) as (Hok & _ & _ & Hset & _).
    split; [exact Hok | exact Hset].
Defined.

(* ================================================================== *)
(** ** Stock movements *)
(* ================================================================== *)

Lemma jobQueue_add_accepted (E : Env) (d : JobData) (r : option nat)
  (w : World) :
  fault E (trace w) (JobQueueAdd d r) = None ->
  jobQueue_add E d r w
  = (Ok tt, add_job {| q_data := d; q_retries := r |}
              (add_call (JobQueueAdd d r) w)).
Proof.
  intros Hq. unfold jobQueue_add, request, modify, bind. now rewrite Hq.
Qed.

Lemma promiseAllMap_jobs (E : Env) (event : StockMovementEvent)
  (ms : list StockMovement) (w : World) :
  (forall tr d r, fault E tr (JobQueueAdd d r) = None) ->
  let run :=
    promiseAllMap ms
      (fun line =>
         jobQueue_add E
           (CancelSubscriptionsJob (serialize (sme_ctx event)) (sm_id line)) None)
      w in
  fst run = Ok tt /\
  jobs (snd run) = jobs w ++ map (cancellationJob event) ms /\
  history (snd run) = history w /\ orders (snd run) = orders w.
Proof.
  intros Hq. revert w.
  induction ms as [|m ms IH]; intros w; cbn zeta.
  - cbn. rewrite app_nil_r. auto.
  - cbn [promiseAllMap].
    rewrite (jobQueue_add_accepted E _ _ w (Hq _ _ _)).
    match goal with
    | |- context [promiseAllMap ms ?f ?w1] =>
        destruct (IH w1) as (Hok & Hjobs & Hhist & Hord)
    end.
    repeat split; [exact Hok| | |].
    + rewrite Hjobs. cbn_world. rewrite <- app_assoc. reflexivity.
    + rewrite Hhist. reflexivity.
    + rewrite Hord. reflexivity.
Qed.

(** X16.  With a queue that accepts every job: on a release or a
    cancellation the subscriber returns normally and adds to the queue one
    job per movement whose order line has a [subscriptionIds] value, in the
    order of the movements, each without a [retries] option and carrying
    the movement's id as [orderLineId]; on a stock movement of any other
    type it adds nothing. *)
Lemma onStockMovementEvent_jobs (E : Env) (event : StockMovementEvent)
  (w : World) :
  (forall tr d r, fault E tr (JobQueueAdd d r) = None) ->
  fst (onStockMovementEvent E event w) = Ok tt /\
  jobs (snd (onStockMovementEvent E event w))
  = jobs w ++
    match sme_type event with
    | RELEASE | CANCELLATION => map (cancellationJob event) (passingMovements event)
    | _ => []
    end.
Proof.
  intros Hq. unfold onStockMovementEvent.
  destruct (sme_type event); cbn zeta;
    try (cbn; rewrite app_nil_r; now auto);
    destruct (promiseAllMap_jobs E event (passingMovements event) w Hq)
      as (Hok & Hjobs & _); split; assumption.
Qed.

Lemma onStockMovementEvent_jobs_witness :
  jobs (snd (onStockMovementEvent Sample.env Sample.release
               (Sample.world [Sample.stripeMethod] [])))
  = [{| q_data := CancelSubscriptionsJob Sample.ctx "900"; q_retries := None |}].
Proof.
  destruct (onStockMovementEvent_jobs Sample.env Sample.release
              (Sample.world [Sample.stripeMethod] []) (fun _ _ _ => eq_refl))
    as [_ Hjobs].
  exact Hjobs.
Defined.

(** C7 (the code at the failing input).  A release of one movement whose
    order line stores the empty list of subscription identifiers passes the
    filter, although the line has no identifier: a cancellation job is
    enqueued, and the order-line id it carries is the id of the movement. *)
Theorem onStockMovementEvent_empty_identifier_list :
  passingMovements
    {| sme_ctx := Sample.ctx; sme_type := RELEASE;
       stockMovements :=
         [{| sm_id := "900"; sm_orderLine := Sample.line "5" (Some []) |}] |}
  = [{| sm_id := "900"; sm_orderLine := Sample.line "5" (Some []) |}] /\
  jobs (snd (onStockMovementEvent Sample.env
               {| sme_ctx := Sample.ctx; sme_type := RELEASE;
                  stockMovements :=
                    [{| sm_id := "900";
                        sm_orderLine := Sample.line "5" (Some []) |}] |}
               (Sample.world [Sample.stripeMethod]
                  [Sample.order 100 [Sample.line "5" (Some [])] None []])))
  = [{| q_data := CancelSubscriptionsJob Sample.ctx "900"; q_retries := None |}].
Proof. split; reflexivity. Qed.

(* ================================================================== *)
(** ** More on intent creation *)
(* ================================================================== *)

(** X1.  Without an active order for the session, [createIntent] throws the
    user-input error "No active order for session"; the query for the
    active order is its only call and nothing is written. *)
Theorem createIntent_without_active_order
  (E : Env) (ctx : RequestContext) (w : World) :
  fault E (trace w) (GetActiveOrder (activeOrderId ctx)) = None ->
  activeOrderOf ctx w = None ->
  createIntent E ctx w
  = (Throw (UserInputError "No active order for session"),
     add_call (GetActiveOrder (activeOrderId ctx)) w).
Proof.
  intros Hq Hnone. unfold createIntent.
  unfold activeOrderService_getActiveOrder, request, gets, bind.
  rewrite Hq.
  change (activeOrderOf ctx (add_call ?c w)) with (activeOrderOf ctx w).
  rewrite Hnone. reflexivity.
Qed.

Lemma createIntent_without_active_order_witness :
  createIntent Sample.env Sample.ctx (Sample.world [Sample.stripeMethod] [])
  = (Throw (UserInputError "No active order for session"),
     add_call (GetActiveOrder (Some "1"%string))
       (Sample.world [Sample.stripeMethod] [])).
Proof.
  exact (createIntent_without_active_order Sample.env Sample.ctx
           (Sample.world [Sample.stripeMethod] []) eq_refl eq_refl).
Defined.

(** X2.  Whenever [createIntent] returns, whatever the collaborators
    answered: the intent type it reports is [SetupIntent]; the client secret
    is not empty and is the one the provider answered to the last call, the
    only request for an intent; and that request carries the card payment
    method type, the channel token, and as metadata amount the amount it
    asks for. *)
Theorem createIntent_returns_secret
  (E : Env) (ctx : RequestContext) (w : World) (r : StripeSubscriptionIntent) :
  fst (createIntent E ctx w) = Ok r ->
  intentType r = SetupIntent /\
  truthy (clientSecret r) = true /\
  exists tr client params,
    calls_of (createIntent E ctx) w tr /\
    last tr (GetActiveOrder None) = StripePaymentIntentsCreate client params /\
    forallb (fun c => negb (isIntentRequest c)) (removelast tr) = true /\
    client_secret (createdIntent E (trace w ++ removelast tr) params)
    = Some (clientSecret r) /\
    pi_meta_amount params = pi_amount params /\
    pi_meta_channelToken params = token (channel ctx) /\
    pi_payment_method_types params = ["card"%string].
Proof.
  unfold calls_of.
  destruct (createIntent E ctx w) as [out w'] eqn:Hrun.
  cbn [fst snd]. intros ->.
  unfold createIntent in Hrun.
  unfold getStripeContext, paymentMethodService_findAll in Hrun.
  unfold_service_in Hrun.
  run_in Hrun.
  all: try discriminate Hrun.
  all: injection Hrun as <- <-.
  all: cbn [intentType clientSecret].
  all: (split; [reflexivity|]).
  all: (split; [assumption|]).
  all: norm_all.
  all: eexists; eexists; eexists.
  all: (split; [reflexivity|]).
  all: cbn [last removelast].
  all: (split; [reflexivity|]).
  all: (split; [reflexivity|]).
  all: (split; [assumption|]).
  all: repeat split; reflexivity.
Qed.

Lemma createIntent_returns_secret_witness :
  intentType {| clientSecret := "secret_1"; intentType := SetupIntent |}
  = SetupIntent /\
  truthy (clientSecret {| clientSecret := "secret_1"; intentType := SetupIntent |})
  = true.
Proof.
  destruct (createIntent_returns_secret Sample.env Sample.ctx
              (Sample.world [Sample.stripeMethod] [Sample.freeOrder])
              {| clientSecret := "secret_1"; intentType := SetupIntent |}
              eq_refl) as (Htype & Hsecret & _).
  exact (conj Htype Hsecret).
Defined.

(** X3.  Whatever the collaborators answer, [createIntent] contacts the
    provider (to find or create the customer, or to create an intent) only
    for a session whose active order has lines, a customer and a shipping
    line: the validations come before every provider call. *)
Theorem createIntent_provider_guarded
  (E : Env) (ctx : RequestContext) (w : World) :
  exists tr,
    calls_of (createIntent E ctx) w tr /\
    (existsb isProviderCall tr = true ->
     exists order,
       activeOrderOf ctx w = Some order /\
       lines order <> [] /\ customer order <> None /\
       shippingLines order <> []).
Proof.
  unfold calls_of.
  destruct (createIntent E ctx w) as [out w'] eqn:Hrun.
  cbn [fst snd].
  unfold createIntent in Hrun.
  unfold getStripeContext, paymentMethodService_findAll in Hrun.
  unfold_service_in Hrun.
  run_in Hrun.
  all: injection Hrun as <- <-.
  all: norm_all.
  all: eexists; (split; [reflexivity|]).
  all: cbn [existsb isProviderCall orb].
  all: try (intros Hfalse; discriminate Hfalse).
  all: intros _.
  all: match goal with
       | H : activeOrderOf ?c (add_call _ ?w0) = Some ?o |- _ =>
           change (activeOrderOf c w0 = Some o) in H;
           pose proof (activeOrderOf_stored c w0 o H) as Hstored;
           exists o; split; [exact H|]
       end.
  all: try match goal with
       | H : orderById (o_id ?o) (add_call _ (add_call _ ?w0)) = Some ?o0 |- _ =>
           change (orderById (o_id o) w0 = Some o0) in H;
           rewrite Hstored in H; injection H as <-
       end.
  all: repeat split; congruence.
Qed.

(** X4.  When the order is valid and the provider context resolves, but
    the channel's stripe method is not among the payment methods quoted
    eligible for the order, [createIntent] throws the user-input error "No
    eligible payment method found" without any call to the provider. *)
Theorem createIntent_ineligible_method
  (E : Env) (ctx : RequestContext) (w : World) (order : Order) (c : Customer)
  (pm : PaymentMethod) (sc : StripeClient) :
  faultless E ->
  activeOrderOf ctx w = Some order ->
  lines order <> [] ->
  customer order = Some c ->
  shippingLines order <> [] ->
  enabledStripeMethods E ctx w = [pm] ->
  credentials pm = Some sc ->
  (forall tr,
     existsb (String.eqb (pm_code pm))
       (map quote_code
          (filter isEligible (eligiblePaymentMethods E tr (o_id order))))
     = false) ->
  fst (createIntent E ctx w)
  = Throw (UserInputError
             "No eligible payment method found with code 'stripe-subscription'") /\
  exists tr,
    calls_of (createIntent E ctx) w tr /\
    forallb (fun call => negb (isProviderCall call)) tr = true.
Proof.
  intros Hrest Hactive Hlines Hcust Hship Hpm Hcred Helig.
  pose proof (activeOrderOf_stored ctx w order Hactive) as Hstored.
  unfold calls_of.
  destruct (createIntent E ctx w) as [out w'] eqn:Hrun.
  cbn [fst snd].
  unfold createIntent in Hrun.
  unfold activeOrderService_getActiveOrder, request, gets in Hrun.
  unfold bind at 1 2 in Hrun. rewrite Hrest in Hrun.
  change (activeOrderOf ctx (add_call ?x w)) with (activeOrderOf ctx w) in Hrun.
  rewrite Hactive in Hrun.
  destruct (lines order) as [|l ls] eqn:Hl; [congruence|].
  destruct (shippingLines order) as [|sl sls] eqn:Hs; [congruence|].
  destruct (Z.eqb (totalWithTax order) 0).
  - unfold orderService_addSurchargeToOrder, ask, gets, modify in Hrun.
    unfold bind at 1 2 3 in Hrun. rewrite Hrest in Hrun.
    change (orderById (o_id order) (add_call ?x (add_call ?y w)))
      with (orderById (o_id order) w) in Hrun.
    rewrite Hstored in Hrun.
    unfold bind at 1 2 in Hrun. unfold ret at 1 in Hrun.
    cbn [o_id with_surcharge] in Hrun.
    unfold entityHydrator_hydrate, request in Hrun.
    rewrite Hrest in Hrun.
    cbn [lines customer shippingLines with_surcharge] in Hrun.
    rewrite Hcust, Hl, Hs in Hrun.
    unfold orderService_getEligiblePaymentMethods, ask in Hrun.
    unfold bind at 1 in Hrun. rewrite Hrest in Hrun.
    unfold bind at 1 in Hrun.
    match type of Hrun with
    | context [getStripeContext E ctx ?w1] =>
        pose proof (getStripeContext_cases E ctx w1 (Hrest _ _)) as Hsc;
        change (enabledStripeMethods E ctx w1) with (enabledStripeMethods E ctx w)
          in Hsc
    end.
    rewrite Hpm, Hcred in Hsc. rewrite Hsc in Hrun. clear Hsc.
    cbn [paymentMethod stripeClient] in Hrun.
    rewrite Helig in Hrun. cbn [negb] in Hrun.
    unfold throw in Hrun. injection Hrun as <- <-.
    split; [reflexivity|]. norm_all.
    eexists. split; reflexivity.
  - unfold ret at 1 in Hrun. unfold bind at 1 in Hrun.
    unfold entityHydrator_hydrate, request in Hrun. unfold bind at 1 in Hrun.
    rewrite Hrest in Hrun.
    rewrite Hcust, Hl, Hs in Hrun.
    unfold orderService_getEligiblePaymentMethods, ask in Hrun.
    unfold bind at 1 in Hrun. rewrite Hrest in Hrun.
    unfold bind at 1 in Hrun.
    match type of Hrun with
    | context [getStripeContext E ctx ?w1] =>
        pose proof (getStripeContext_cases E ctx w1 (Hrest _ _)) as Hsc;
        change (enabledStripeMethods E ctx w1) with (enabledStripeMethods E ctx w)
          in Hsc
    end.
    rewrite Hpm, Hcred in Hsc. rewrite Hsc in Hrun. clear Hsc.
    cbn [paymentMethod stripeClient] in Hrun.
    rewrite Helig in Hrun. cbn [negb] in Hrun.
    unfold throw in Hrun. injection Hrun as <- <-.
    split; [reflexivity|]. norm_all.
    eexists. split; reflexivity.
Qed.

Lemma createIntent_ineligible_method_witness :
  fst (createIntent Sample.env_ineligible Sample.ctx (Sample.world [Sample.stripeMethod] [Sample.paidOrder "AddingItems"]))
  = Throw (UserInputError
             "No eligible payment method found with code 'stripe-subscription'").
Proof.
  apply (createIntent_ineligible_method Sample.env_ineligible Sample.ctx
           (Sample.world [Sample.stripeMethod] [Sample.paidOrder "AddingItems"])
           (Sample.paidOrder "AddingItems") Sample.hayley Sample.stripeMethod
           {| webhookSecret := "whsec_1"; apiKey := "sk_test_1" |});
    first [reflexivity | discriminate | (unfold faultless; intros; reflexivity)].
Defined.

(** X5.  For an active order with a non-zero total, lines, a customer and a
    shipping line, a resolving provider context, an eligible stripe method
    and a provider that answers with a secret, [createIntent] returns that
    secret after exactly seven calls: the four that open the request, the
    resolution of the provider customer, the update that stores the
    customer's provider identifier, and last the request for an intent of
    the order's total in the order's currency, for that provider customer,
    tagged with the order code and the channel token.  What the update of
    the customer answers decides the rest.  When it is accepted, the
    identifier is stored on the customer and the only new log line reports
    the created intent.  When it is rejected, the rejection is only logged:
    the stored orders are as before, and the log gains two lines, the
    failed update, as an error, and the created intent (the update is not
    awaited, so their order is left open). *)
Theorem createIntent_succeeds
  (E : Env) (ctx : RequestContext) (w : World) (order : Order) (c : Customer)
  (pm : PaymentMethod) (sc : StripeClient) (secret : string) :
  (forall tr call, isCustomerUpdate call = false -> fault E tr call = None) ->
  activeOrderOf ctx w = Some order ->
  totalWithTax order <> 0%Z ->
  lines order <> [] ->
  customer order = Some c ->
  shippingLines order <> [] ->
  enabledStripeMethods E ctx w = [pm] ->
  credentials pm = Some sc ->
  (forall tr,
     existsb (String.eqb (pm_code pm))
       (map quote_code
          (filter isEligible (eligiblePaymentMethods E tr (o_id order))))
     = true) ->
  (forall tr params, client_secret (createdIntent E tr params) = Some secret) ->
  truthy secret = true ->
  let opening :=
    [ GetActiveOrder (activeOrderId ctx);
      Hydrate (o_id order)
        ["customer"; "shippingLines"; "lines.productVariant"]%string;
      GetEligiblePaymentMethods (o_id order);
      PaymentMethodFindAll (token (channel ctx)) ] in
  let cus := stripeCustomerId_of E (trace w ++ opening) c in
  let params :=
    {| pi_customer := cus;
       pi_payment_method_types := ["card"%string];
       pi_setup_future_usage :=
         if existsb (fun l => option_truthy (subscriptionSchedule (productVariant l)))
                    (lines order)
         then "off_session" else "on_session";
       pi_amount := totalWithTax order;
       pi_currency := currencyCode order;
       pi_meta_orderCode := o_code order;
       pi_meta_channelToken := token (channel ctx);
       pi_meta_amount := totalWithTax order |} in
  let upto :=
    opening ++ [StripeGetOrCreateCustomer sc (c_id c); CustomerUpdate (c_id c) cus] in
  let created :=
    {| level := LogInfo;
       text := ("Created SetupIntent '"
                  ++ intent_id (createdIntent E (trace w ++ upto) params)
                  ++ "' for order " ++ o_code order)%string;
       tagged := true |} in
  let failed :=
    {| level := LogError;
       text := ("Failed to update stripeCustomerId " ++ cus ++ " for "
                  ++ emailAddress c)%string;
       tagged := true |} in
  fst (createIntent E ctx w)
  = Ok {| clientSecret := secret; intentType := SetupIntent |} /\
  calls_of (createIntent E ctx) w (upto ++ [StripePaymentIntentsCreate sc params]) /\
  match fault E (trace w ++ opening ++ [StripeGetOrCreateCustomer sc (c_id c)])
          (CustomerUpdate (c_id c) cus) with
  | None =>
      orders (snd (createIntent E ctx w)) = update_customer (c_id c) cus (orders w) /\
      logs (snd (createIntent E ctx w)) = logs w ++ [created]
  | Some _ =>
      orders (snd (createIntent E ctx w)) = orders w /\
      exists added,
        logs (snd (createIntent E ctx w)) = logs w ++ added /\
        Permutation added [failed; created]
  end.
Proof.
  intros Hrest Hactive Hnonzero Hlines Hcust Hship Hpm Hcred Helig Hsecret Htruthy.
  cbn zeta. unfold calls_of.
  destruct (createIntent E ctx w) as [out w'] eqn:Hrun.
  cbn [fst snd].
  unfold createIntent in Hrun.
  unfold activeOrderService_getActiveOrder, request, gets in Hrun.
  unfold bind at 1 2 in Hrun. rewrite Hrest in Hrun by reflexivity.
  change (activeOrderOf ctx (add_call ?x w)) with (activeOrderOf ctx w) in Hrun.
  rewrite Hactive in Hrun.
  apply Z.eqb_neq in Hnonzero. rewrite Hnonzero in Hrun.
  unfold ret at 1 in Hrun. unfold bind at 1 in Hrun.
  unfold entityHydrator_hydrate, request in Hrun. unfold bind at 1 in Hrun.
  rewrite Hrest in Hrun by reflexivity.
  rewrite Hcust in Hrun.
  destruct (lines order) as [|l ls] eqn:Hl; [congruence|].
  destruct (shippingLines order) as [|sl sls] eqn:Hs; [congruence|].
  unfold orderService_getEligiblePaymentMethods, ask in Hrun.
  unfold bind at 1 in Hrun. rewrite Hrest in Hrun by reflexivity.
  unfold bind at 1 in Hrun.
  match type of Hrun with
  | context [getStripeContext E ctx ?w1] =>
      pose proof (getStripeContext_cases E ctx w1
                    (Hrest (trace w1) (PaymentMethodFindAll _) eq_refl)) as Hsc;
      change (enabledStripeMethods E ctx w1) with (enabledStripeMethods E ctx w)
        in Hsc
  end.
  rewrite Hpm, Hcred in Hsc. rewrite Hsc in Hrun. clear Hsc.
  cbn [paymentMethod stripeClient] in Hrun.
  rewrite Helig in Hrun. cbn [negb] in Hrun.
  unfold_service_in Hrun.
  rewrite Hrest in Hrun by reflexivity. cbn [fst snd] in Hrun.
  cbn_world in Hrun. rewrite <- ?app_assoc in Hrun. cbn [app] in Hrun.
  cbn [app].
  destruct (fault E _ (CustomerUpdate _ _)).
  all: cbn [fst snd] in Hrun.
  all: rewrite Hrest in Hrun by reflexivity.
  all: rewrite Hsecret, Htruthy in Hrun.
  all: injection Hrun as <- <-.
  all: (split; [reflexivity|]).
  all: norm_all.
  all: split; [reflexivity|]; split; [reflexivity|].
  - eexists. split; [reflexivity|]. apply Permutation_refl.
  - reflexivity.
Qed.

Lemma createIntent_succeeds_witness :
  let w := Sample.world [Sample.stripeMethod] [Sample.paidOrder "AddingItems"] in
  fst (createIntent Sample.env Sample.ctx w)
  = Ok {| clientSecret := "secret_1"; intentType := SetupIntent |} /\
  length (logs (snd (createIntent Sample.env Sample.ctx w))) = 1.
Proof.
  cbn zeta.
  destruct (createIntent_succeeds Sample.env Sample.ctx
              (Sample.world [Sample.stripeMethod] [Sample.paidOrder "AddingItems"])
              (Sample.paidOrder "AddingItems") Sample.hayley Sample.stripeMethod
              {| webhookSecret := "whsec_1"; apiKey := "sk_test_1" |} "secret_1"
              (fun _ _ _ => eq_refl) eq_refl ltac:(discriminate)
              ltac:(discriminate) eq_refl ltac:(discriminate) eq_refl eq_refl
              (fun _ => eq_refl) (fun _ _ => eq_refl) eq_refl)
    as (Hret & _ & Hlog).
  split; [exact Hret|].
  cbn in Hlog. destruct Hlog as [_ Hlog].
  apply (f_equal (@length LogLine)) in Hlog. exact Hlog.
Defined.

(* ================================================================== *)
(** ** More on the payment-intent-succeeded webhook *)
(* ================================================================== *)

(** What [getStripeContext] left behind when it resolved. *)
Lemma handlePaymentIntentSucceeded_frame_ctx
  (E : Env) (ctx : RequestContext) (w w1 : World) (sc : StripeContext) :
  getStripeContext E ctx w = (Ok sc, w1) ->
  trace w1 = trace w ++ [PaymentMethodFindAll (token (channel ctx))] /\
  orders w1 = orders w /\ jobs w1 = jobs w /\ history w1 = history w.
Proof.
  intros H. pose proof (getStripeContext_frame E ctx w) as F.
  rewrite H in F. cbn [snd] in F. tauto.
Qed.

(** X6.  When the provider context resolves, the payload names a customer,
    and the framework answers and accepts, [handlePaymentIntentSucceeded]
    returns normally.  Its calls are the query for payment methods, the
    request to enqueue the creation job with [retries: 0], the transition to
    ArrangingPayment unless the order is already in that state, and the
    settlement with the stripe method's code, the intent id and the metadata
    amount.  The job is in the queue exactly when the queue accepted it: a
    rejection by the queue does not stop the settlement. *)
Theorem handlePaymentIntentSucceeded_settles
  (E : Env) (ctx : RequestContext) (object : StripePaymentIntent)
  (order : Order) (w w1 : World) (sc : StripeContext) (c : string) :
  getStripeContext E ctx w = (Ok sc, w1) ->
  spi_customer object = Some c ->
  truthy c = true ->
  (forall tr call, isJobQueueAdd call = false -> fault E tr call = None) ->
  (forall tr i st, transitionRejection E tr i st = None) ->
  (forall tr i p, paymentRejection E tr i p = None) ->
  let arranging := String.eqb (o_state order) "ArrangingPayment" in
  let job := creationJob ctx order c object in
  fst (handlePaymentIntentSucceeded E ctx object order w) = Ok tt /\
  calls_of (handlePaymentIntentSucceeded E ctx object order) w
    ([PaymentMethodFindAll (token (channel ctx)); JobQueueAdd job (Some 0)]
       ++ (if arranging then []
           else [TransitionToState (o_id order) "ArrangingPayment"])
       ++ [AddPaymentToOrder (o_id order) (settlement sc object)]) /\
  jobs (snd (handlePaymentIntentSucceeded E ctx object order w))
  = jobs w
    ++ match fault E (trace w1) (JobQueueAdd job (Some 0)) with
       | None => [{| q_data := job; q_retries := Some 0 |}]
       | Some _ => []
       end /\
  orders (snd (handlePaymentIntentSucceeded E ctx object order w))
  = update_order (o_id order) (with_payment (settlement sc object))
      (if arranging then orders w
       else update_order (o_id order) (with_state "ArrangingPayment") (orders w)).
Proof.
  intros Hctx Hcust Htruthy Hrest Htrans Hpay. cbn zeta. unfold calls_of.
  destruct (handlePaymentIntentSucceeded_frame_ctx E ctx w w1 sc Hctx)
    as (Htr & Hord & Hjobs & _).
  destruct (handlePaymentIntentSucceeded E ctx object order w) as [out w']
    eqn:Hrun.
  cbn [fst snd].
  unfold handlePaymentIntentSucceeded in Hrun. unfold bind at 1 in Hrun.
  rewrite Hctx, Hcust, Htruthy in Hrun. cbn [negb] in Hrun.
  unfold_service_in Hrun.
  unfold creationJob, settlement.
  destruct (fault E (trace w1) (JobQueueAdd _ (Some 0)));
    destruct (String.eqb (o_state order) "ArrangingPayment");
    cbn [fst snd negb] in Hrun;
    repeat (first [ rewrite Hrest in Hrun by reflexivity
                  | rewrite Htrans in Hrun | rewrite Hpay in Hrun ];
            cbn [fst snd] in Hrun);
    injection Hrun as <- <-; norm_all;
    rewrite ?Htr, ?Hord, ?Hjobs, <- ?app_assoc, ?app_nil_r; cbn [app]; auto.
Qed.

Lemma handlePaymentIntentSucceeded_settles_witness :
  fst (handlePaymentIntentSucceeded Sample.env Sample.ctx Sample.succeededIntent
         (Sample.paidOrder "AddingItems") (Sample.world [Sample.stripeMethod] [Sample.paidOrder "AddingItems"]))
  = Ok tt /\
  map o_state
    (orders (snd (handlePaymentIntentSucceeded Sample.env Sample.ctx
                    Sample.succeededIntent (Sample.paidOrder "AddingItems")
                    (Sample.world [Sample.stripeMethod] [Sample.paidOrder "AddingItems"]))))
  = ["ArrangingPayment"%string].
Proof.
  destruct (handlePaymentIntentSucceeded_settles Sample.env Sample.ctx
              Sample.succeededIntent (Sample.paidOrder "AddingItems")
              (Sample.world [Sample.stripeMethod] [Sample.paidOrder "AddingItems"]) _
              {| paymentMethod := Sample.stripeMethod;
        stripeClient := {| webhookSecret := "whsec_1"; apiKey := "sk_test_1" |} |}
              "cus_7" eq_refl eq_refl eq_refl
              (fun _ _ _ => eq_refl) (fun _ _ _ => eq_refl)
              (fun _ _ _ => eq_refl)) as (Hok & _ & _ & Horders).
  split; [exact Hok|]. rewrite Horders. reflexivity.
Defined.

(** X7.  When the order is not yet in ArrangingPayment and the framework
    rejects the transition, [handlePaymentIntentSucceeded] throws the
    transition error and never asks for the settlement; the stored orders
    are untouched, but the creation job, enqueued before the transition, is
    in the queue. *)
Theorem handlePaymentIntentSucceeded_rejected_transition
  (E : Env) (ctx : RequestContext) (object : StripePaymentIntent)
  (order : Order) (w w1 : World) (sc : StripeContext) (c : string)
  (err : OrderStateTransitionError) :
  getStripeContext E ctx w = (Ok sc, w1) ->
  spi_customer object = Some c ->
  truthy c = true ->
  String.eqb (o_state order) "ArrangingPayment" = false ->
  (forall tr, fault E tr (JobQueueAdd (creationJob ctx order c object) (Some 0))
              = None) ->
  (forall tr, fault E tr (TransitionToState (o_id order) "ArrangingPayment") = None) ->
  (forall tr, transitionRejection E tr (o_id order) "ArrangingPayment" = Some err) ->
  fst (handlePaymentIntentSucceeded E ctx object order w)
  = Throw (Error ("Error transitioning order " ++ o_code order ++ " from "
                    ++ fromState err ++ " to " ++ toState err ++ ": "
                    ++ transition_message err)%string) /\
  calls_of (handlePaymentIntentSucceeded E ctx object order) w
    [ PaymentMethodFindAll (token (channel ctx));
      JobQueueAdd (creationJob ctx order c object) (Some 0);
      TransitionToState (o_id order) "ArrangingPayment" ] /\
  jobs (snd (handlePaymentIntentSucceeded E ctx object order w))
  = jobs w ++ [{| q_data := creationJob ctx order c object; q_retries := Some 0 |}] /\
  orders (snd (handlePaymentIntentSucceeded E ctx object order w)) = orders w.
Proof.
  intros Hctx Hcust Htruthy Hstate Hadd Hcall Hrej. unfold calls_of.
  destruct (handlePaymentIntentSucceeded_frame_ctx E ctx w w1 sc Hctx)
    as (Htr & Hord & Hjobs & _).
  destruct (handlePaymentIntentSucceeded E ctx object order w) as [out w']
    eqn:Hrun.
  cbn [fst snd].
  unfold handlePaymentIntentSucceeded in Hrun. unfold bind at 1 in Hrun.
  rewrite Hctx, Hcust, Htruthy, Hstate in Hrun. cbn [negb] in Hrun.
  unfold_service_in Hrun. unfold creationJob in *.
  rewrite Hadd in Hrun. cbn [fst snd] in Hrun.
  rewrite Hcall in Hrun. rewrite Hrej in Hrun. cbn [fst snd] in Hrun.
  injection Hrun as <- <-. norm_all.
  rewrite ?Htr, ?Hord, ?Hjobs, <- ?app_assoc; cbn [app]; auto.
Qed.

Lemma handlePaymentIntentSucceeded_rejected_transition_witness :
  jobs (snd (handlePaymentIntentSucceeded Sample.env_rejecting_transition
               Sample.ctx Sample.succeededIntent (Sample.paidOrder "AddingItems")
               (Sample.world [Sample.stripeMethod] [Sample.paidOrder "AddingItems"])))
  = [{| q_data := CreateSubscriptionsJob Sample.ctx "ORDER-1" "cus_7" "pm_1";
        q_retries := Some 0 |}].
Proof.
  destruct (handlePaymentIntentSucceeded_rejected_transition
              Sample.env_rejecting_transition Sample.ctx Sample.succeededIntent
              (Sample.paidOrder "AddingItems")
              (Sample.world [Sample.stripeMethod] [Sample.paidOrder "AddingItems"]) _
              {| paymentMethod := Sample.stripeMethod;
        stripeClient := {| webhookSecret := "whsec_1"; apiKey := "sk_test_1" |} |}
              "cus_7"
              {| fromState := "AddingItems"; toState := "ArrangingPayment";
                 transition_message := "Cannot transition" |}
              eq_refl eq_refl eq_refl eq_refl
              (fun _ => eq_refl) (fun _ => eq_refl) (fun _ => eq_refl))
    as (_ & _ & Hjobs & _).
  exact Hjobs.
Defined.



(** X9.  Whatever the collaborators answer, [handlePaymentIntentSucceeded]
    asks for no transition when the order is already in ArrangingPayment,
    asks for a settlement at most once and only as its last call, and never
    asks for a settlement without having asked the queue for the creation
    job first. *)
Theorem handlePaymentIntentSucceeded_call_order
  (E : Env) (ctx : RequestContext) (object : StripePaymentIntent)
  (order : Order) (w : World) :
  exists tr,
    calls_of (handlePaymentIntentSucceeded E ctx object order) w tr /\
    (o_state order = "ArrangingPayment"%string ->
     forallb (fun c => negb (isTransition c)) tr = true) /\
    forallb (fun c => negb (isSettlement c)) (removelast tr) = true /\
    (existsb isSettlement tr = true -> existsb isJobQueueAdd tr = true).
Proof.
  unfold calls_of.
  destruct (handlePaymentIntentSucceeded E ctx object order w) as [out w']
    eqn:Hrun.
  cbn [snd].
  unfold handlePaymentIntentSucceeded in Hrun. unfold bind at 1 in Hrun.
  pose proof (getStripeContext_frame E ctx w) as (Htr & _).
  destruct (getStripeContext E ctx w) as [[sc|e] w1]; cbn [snd] in Htr.
  2:{ injection Hrun as <- <-. eexists. split; [exact Htr|].
      cbn. auto. }
  unfold_service_in Hrun.
  run_in Hrun.
  all: injection Hrun as <- <-.
  all: cbn_world; rewrite ?Htr, <- ?app_assoc; cbn [app].
  all: eexists; (split; [reflexivity|]).
  all: cbn [removelast forallb existsb isSettlement isTransition isJobQueueAdd
            negb andb orb].
  all: repeat split; auto.
  all: intros Hst; rewrite Hst in *; cbn in *; congruence.
Qed.

(* ================================================================== *)
(** ** More on cancelling the subscriptions of an order line *)
(* ================================================================== *)

(** X10.  When no stored order owns the line, [cancelSubscriptionForOrderLine]
    throws "Order for OrderLine ... not found"; the lookup is its only call
    and nothing is written. *)
Theorem cancelSubscriptionForOrderLine_order_not_found
  (E : Env) (ctx : RequestContext) (orderLineId : ID) (w : World) :
  fault E (trace w) (FindOneByOrderLineId orderLineId ["lines"%string]) = None ->
  orderOfLine orderLineId w = None ->
  cancelSubscriptionForOrderLine E ctx orderLineId w
  = (Throw (Error ("Order for OrderLine " ++ orderLineId ++ " not found")%string),
     add_call (FindOneByOrderLineId orderLineId ["lines"%string]) w).
Proof.
  intros Hq Hnone. unfold cancelSubscriptionForOrderLine.
  unfold orderService_findOneByOrderLineId, request, gets, bind.
  rewrite Hq.
  change (orderOfLine orderLineId (add_call ?c w)) with (orderOfLine orderLineId w).
  rewrite Hnone. reflexivity.
Qed.

Lemma cancelSubscriptionForOrderLine_order_not_found_witness :
  cancelSubscriptionForOrderLine Sample.env Sample.ctx "5"
    (Sample.world [Sample.stripeMethod] [])
  = (Throw (Error "Order for OrderLine 5 not found"),
     add_call (FindOneByOrderLineId "5" ["lines"%string])
       (Sample.world [Sample.stripeMethod] [])).
Proof.
  exact (cancelSubscriptionForOrderLine_order_not_found Sample.env Sample.ctx
           "5" (Sample.world [Sample.stripeMethod] []) eq_refl eq_refl).
Defined.

(** With identifiers on the line, the handler is its three opening calls
    followed by the loop. *)
Lemma cancelSubscriptionForOrderLine_loop
  (E : Env) (ctx : RequestContext) (orderLineId : ID) (w : World)
  (order : Order) (line : OrderLine) (ids : list string)
  (pm : PaymentMethod) (sc : StripeClient) :
  (forall tr, fault E tr (FindOneByOrderLineId orderLineId ["lines"%string]) = None) ->
  (forall tr, fault E tr (Hydrate orderLineId ["order"%string]) = None) ->
  (forall tr, fault E tr (PaymentMethodFindAll (token (channel ctx))) = None) ->
  orderOfLine orderLineId w = Some order ->
  lineOf orderLineId order = Some line ->
  subscriptionIds line = Some ids ->
  ids <> [] ->
  enabledStripeMethods E ctx w = [pm] ->
  credentials pm = Some sc ->
  cancelSubscriptionForOrderLine E ctx orderLineId w
  = forOf ids (cancelOne E ctx order sc)
      (add_call (PaymentMethodFindAll (token (channel ctx)))
         (add_call (Hydrate orderLineId ["order"%string])
            (add_call (FindOneByOrderLineId orderLineId ["lines"%string]) w))).
Proof.
  intros Hfind Hhyd Hall Horder Hline Hids Hne Hpm Hcred.
  unfold cancelSubscriptionForOrderLine.
  unfold orderService_findOneByOrderLineId, entityHydrator_hydrate,
    request, gets.
  unfold bind at 1 2. rewrite Hfind.
  change (orderOfLine orderLineId (add_call ?c w)) with (orderOfLine orderLineId w).
  rewrite Horder. cbn zeta. rewrite Hline.
  unfold idsOf. rewrite Hids.
  destruct ids as [|s rest]; [congruence|].
  unfold bind at 1. rewrite Hhyd.
  unfold bind at 1.
  match goal with
  | |- context [getStripeContext E ctx ?w1] =>
      pose proof (getStripeContext_cases E ctx w1 (Hall (trace w1))) as Hsc;
      change (enabledStripeMethods E ctx w1) with (enabledStripeMethods E ctx w)
        in Hsc
  end.
  rewrite Hpm, Hcred in Hsc. rewrite Hsc. reflexivity.
Qed.

(** One turn of the loop when everything but the provider answers. *)
Lemma cancelOne_audited
  (E : Env) (ctx : RequestContext) (order : Order) (sc : StripeClient)
  (s : string) (w : World) :
  (forall tr c, isSubscriptionsUpdate c = false -> fault E tr c = None) ->
  exists h w',
    cancelOne E ctx order sc s w = (Ok tt, w') /\
    (h = cancelledEntry order s \/ exists e, h = failedEntry order s e) /\
    (h_valid h = true <-> fault E (trace w) (StripeSubscriptionsUpdate sc s) = None) /\
    history w' = history w ++ [h] /\
    trace w' = trace w ++ [StripeSubscriptionsUpdate sc s; CreateHistoryEntryForOrder h] /\
    orders w' = orders w /\ jobs w' = jobs w.
Proof.
  intros Hrest. unfold cancelOne. unfold_service.
  destruct (fault E (trace w) (StripeSubscriptionsUpdate sc s)) as [e|];
    cbn [fst snd]; rewrite Hrest by reflexivity.
  - exists (failedEntry order s e). eexists. split; [reflexivity|].
    cbn_world. rewrite <- !app_assoc. cbn [app].
    repeat split; eauto; try discriminate.
  - exists (cancelledEntry order s). eexists. split; [reflexivity|].
    cbn_world. rewrite <- !app_assoc. cbn [app].
    repeat split; eauto.
Qed.

Lemma forOf_cancelOne_audited
  (E : Env) (ctx : RequestContext) (order : Order) (sc : StripeClient)
  (ids : list string) :
  (forall tr c, isSubscriptionsUpdate c = false -> fault E tr c = None) ->
  forall w,
  exists hs tr w',
    forOf ids (cancelOne E ctx order sc) w = (Ok tt, w') /\
    Forall2 (fun s h => h = cancelledEntry order s \/ exists e, h = failedEntry order s e)
            ids hs /\
    history w' = history w ++ hs /\
    trace w' = trace w ++ tr /\
    filter isSubscriptionsUpdate tr = map (StripeSubscriptionsUpdate sc) ids /\
    orders w' = orders w /\ jobs w' = jobs w.
Proof.
  intros Hrest. induction ids as [|s rest IH]; intros w.
  - exists [], [], w. cbn. rewrite !app_nil_r. repeat split; auto.
  - destruct (cancelOne_audited E ctx order sc s w Hrest)
      as (h & w1 & Hone & Hh & _ & Hhist & Htr & Hord & Hjobs).
    destruct (IH w1) as (hs & tr & w' & Hrun & Hall & Hhist' & Htr' & Hf & Hord' & Hjobs').
    exists (h :: hs),
      ([StripeSubscriptionsUpdate sc s; CreateHistoryEntryForOrder h] ++ tr), w'.
    cbn [forOf]. unfold bind. rewrite Hone, Hrun.
    repeat split.
    + constructor; assumption.
    + rewrite Hhist', Hhist, <- app_assoc. reflexivity.
    + rewrite Htr', Htr, <- app_assoc. reflexivity.
    + cbn. rewrite Hf. reflexivity.
    + congruence.
    + congruence.
Qed.

(** X11.  For a line with any non-empty list of identifiers, a resolving
    provider context and collaborators that answer, whichever cancellations
    the provider rejects: [cancelSubscriptionForOrderLine] returns normally,
    asks the provider once per identifier, in the order of the list, and
    adds to the history exactly one entry per identifier, in that order,
    each the success entry or a failure entry of its identifier; the stored
    orders are untouched. *)
Theorem cancelSubscriptionForOrderLine_audits_every_identifier
  (E : Env) (ctx : RequestContext) (orderLineId : ID) (w : World)
  (order : Order) (line : OrderLine) (ids : list string)
  (pm : PaymentMethod) (sc : StripeClient) :
  (forall tr c, isSubscriptionsUpdate c = false -> fault E tr c = None) ->
  orderOfLine orderLineId w = Some order ->
  lineOf orderLineId order = Some line ->
  subscriptionIds line = Some ids ->
  ids <> [] ->
  enabledStripeMethods E ctx w = [pm] ->
  credentials pm = Some sc ->
  fst (cancelSubscriptionForOrderLine E ctx orderLineId w) = Ok tt /\
  exists hs tr,
    history (snd (cancelSubscriptionForOrderLine E ctx orderLineId w))
    = history w ++ hs /\
    Forall2 (fun s h => h = cancelledEntry order s \/ exists e, h = failedEntry order s e)
            ids hs /\
    calls_of (cancelSubscriptionForOrderLine E ctx orderLineId) w tr /\
    filter isSubscriptionsUpdate tr = map (StripeSubscriptionsUpdate sc) ids /\
    orders (snd (cancelSubscriptionForOrderLine E ctx orderLineId w)) = orders w.
Proof.
  intros Hrest Horder Hline Hids Hne Hpm Hcred. unfold calls_of.
  rewrite (cancelSubscriptionForOrderLine_loop E ctx orderLineId w order line ids
             pm sc) by (auto; intros; apply Hrest; reflexivity).
  match goal with
  | |- context [forOf ids ?f ?w0] =>
      destruct (forOf_cancelOne_audited E ctx order sc ids Hrest w0)
        as (hs & tr & w' & Hrun & Hall & Hhist & Htr & Hf & Hord & _)
  end.
  rewrite Hrun. cbn [fst snd]. split; [reflexivity|].
  exists hs. eexists. split; [exact Hhist|]. split; [exact Hall|].
  cbn_world in Htr. rewrite <- !app_assoc in Htr. cbn [app] in Htr.
  split; [exact Htr|]. split; [cbn; exact Hf | exact Hord].
Qed.

Lemma cancelSubscriptionForOrderLine_audits_every_identifier_witness :
  fst (cancelSubscriptionForOrderLine Sample.env_failing_A Sample.ctx "5"
         (Sample.world [Sample.stripeMethod]
              [Sample.order 100
                 [Sample.line "5" (Some ["sub_A"; "sub_B"]%string)] None []]))
  = Ok tt.
Proof.
  assert (Hrest : forall tr c,
             isSubscriptionsUpdate c = false ->
             fault Sample.env_failing_A tr c = None).
  { intros tr c Hc. destruct c; try reflexivity. discriminate Hc. }
  exact (proj1 (cancelSubscriptionForOrderLine_audits_every_identifier
                  Sample.env_failing_A Sample.ctx "5"
                  (Sample.world [Sample.stripeMethod]
              [Sample.order 100
                 [Sample.line "5" (Some ["sub_A"; "sub_B"]%string)] None []])
                  (Sample.order 100
                     [Sample.line "5" (Some ["sub_A"; "sub_B"]%string)] None [])
                  (Sample.line "5" (Some ["sub_A"; "sub_B"]%string))
                  ["sub_A"; "sub_B"]%string
                  Sample.stripeMethod
                  {| webhookSecret := "whsec_1"; apiKey := "sk_test_1" |}
                  Hrest eq_refl eq_refl eq_refl ltac:(discriminate)
                  eq_refl eq_refl)).
Defined.

(** X12.  When the line has identifiers but the channel has no, or more
    than one, enabled stripe-subscription method, [cancelSubscriptionForOrderLine]
    throws the user-input error of the resolution after its three opening
    calls: the provider is not asked to cancel anything and no audit entry
    is written. *)
Theorem cancelSubscriptionForOrderLine_unresolved_context
  (E : Env) (ctx : RequestContext) (orderLineId : ID) (w : World)
  (order : Order) (line : OrderLine) (s : string) (rest : list string) :
  (forall tr, fault E tr (FindOneByOrderLineId orderLineId ["lines"%string]) = None) ->
  (forall tr, fault E tr (Hydrate orderLineId ["order"%string]) = None) ->
  (forall tr, fault E tr (PaymentMethodFindAll (token (channel ctx))) = None) ->
  orderOfLine orderLineId w = Some order ->
  lineOf orderLineId order = Some line ->
  subscriptionIds line = Some (s :: rest) ->
  length (enabledStripeMethods E ctx w) <> 1 ->
  (exists msg,
     fst (cancelSubscriptionForOrderLine E ctx orderLineId w)
     = Throw (UserInputError msg)) /\
  calls_of (cancelSubscriptionForOrderLine E ctx orderLineId) w
    [ FindOneByOrderLineId orderLineId ["lines"%string];
      Hydrate orderLineId ["order"%string];
      PaymentMethodFindAll (token (channel ctx)) ] /\
  history (snd (cancelSubscriptionForOrderLine E ctx orderLineId w)) = history w.
Proof.
  intros Hfind Hhyd Hall Horder Hline Hids Hlen. unfold calls_of.
  destruct (cancelSubscriptionForOrderLine E ctx orderLineId w) as [out w']
    eqn:Hrun.
  cbn [fst snd].
  unfold cancelSubscriptionForOrderLine in Hrun.
  unfold orderService_findOneByOrderLineId, entityHydrator_hydrate,
    request, gets in Hrun.
  unfold bind at 1 2 in Hrun. rewrite Hfind in Hrun.
  change (orderOfLine orderLineId (add_call ?c w))
    with (orderOfLine orderLineId w) in Hrun.
  rewrite Horder in Hrun. cbn zeta in Hrun. rewrite Hline in Hrun.
  unfold idsOf in Hrun. rewrite Hids in Hrun.
  unfold bind at 1 in Hrun. rewrite Hhyd in Hrun.
  unfold bind at 1 in Hrun.
  match type of Hrun with
  | context [getStripeContext E ctx ?w1] =>
      pose proof (getStripeContext_cases E ctx w1 (Hall (trace w1))) as Hsc;
      change (enabledStripeMethods E ctx w1) with (enabledStripeMethods E ctx w)
        in Hsc
  end.
  destruct (enabledStripeMethods E ctx w) as [|pm [|pm' more]].
  - rewrite Hsc in Hrun. injection Hrun as <- <-.
    cbn_world. rewrite <- !app_assoc. cbn [app]. eauto.
  - cbn in Hlen. congruence.
  - rewrite Hsc in Hrun. injection Hrun as <- <-.
    cbn_world. rewrite <- !app_assoc. cbn [app]. eauto.
Qed.

Lemma cancelSubscriptionForOrderLine_unresolved_context_witness :
  history
    (snd (cancelSubscriptionForOrderLine Sample.env Sample.ctx "5"
            (Sample.world []
              [Sample.order 100
                 [Sample.line "5" (Some ["sub_A"; "sub_B"]%string)] None []])))
  = [].
Proof.
  exact (proj2 (proj2
           (cancelSubscriptionForOrderLine_unresolved_context
              Sample.env Sample.ctx "5"
              (Sample.world []
              [Sample.order 100
                 [Sample.line "5" (Some ["sub_A"; "sub_B"]%string)] None []])
              (Sample.order 100
                 [Sample.line "5" (Some ["sub_A"; "sub_B"]%string)] None [])
              (Sample.line "5" (Some ["sub_A"; "sub_B"]%string))
              "sub_A" ["sub_B"%string]
              (fun _ => eq_refl) (fun _ => eq_refl) (fun _ => eq_refl)
              eq_refl eq_refl eq_refl ltac:(cbn; discriminate)))).
Defined.

(** One turn of the loop when the history service rejects success entries. *)
Lemma cancelOne_misreported
  (E : Env) (ctx : RequestContext) (order : Order) (sc : StripeClient)
  (s : string) (e : JsError) (w : World) :
  (forall tr c, isValidAudit c = false -> fault E tr c = None) ->
  (forall tr h, h_valid h = true ->
                fault E tr (CreateHistoryEntryForOrder h) = Some e) ->
  exists w',
    cancelOne E ctx order sc s w = (Ok tt, w') /\
    history w' = history w ++ [failedEntry order s e] /\
    trace w' = trace w ++ [ StripeSubscriptionsUpdate sc s;
                            CreateHistoryEntryForOrder (cancelledEntry order s);
                            CreateHistoryEntryForOrder (failedEntry order s e) ].
Proof.
  intros Hrest Hreject. unfold cancelOne. unfold_service.
  rewrite Hrest by reflexivity. cbn [fst snd].
  rewrite Hreject by reflexivity. cbn [fst snd].
  rewrite Hrest by reflexivity.
  eexists. split; [reflexivity|].
  cbn_world. rewrite <- !app_assoc. cbn [app]. split; reflexivity.
Qed.

(** X13.  The audit write for a success is inside the [try] of the loop.
    With a provider that accepts every cancellation and a history service
    that rejects the entries reporting success (and accepts the others),
    [cancelSubscriptionForOrderLine] returns normally having asked the
    provider to cancel every identifier, and the history gains, for every
    identifier, a failure entry. *)
Theorem cancelSubscriptionForOrderLine_rejected_success_audit
  (E : Env) (ctx : RequestContext) (orderLineId : ID) (w : World)
  (order : Order) (line : OrderLine) (ids : list string) (e : JsError)
  (pm : PaymentMethod) (sc : StripeClient) :
  (forall tr c, isValidAudit c = false -> fault E tr c = None) ->
  (forall tr h, h_valid h = true ->
                fault E tr (CreateHistoryEntryForOrder h) = Some e) ->
  orderOfLine orderLineId w = Some order ->
  lineOf orderLineId order = Some line ->
  subscriptionIds line = Some ids ->
  ids <> [] ->
  enabledStripeMethods E ctx w = [pm] ->
  credentials pm = Some sc ->
  fst (cancelSubscriptionForOrderLine E ctx orderLineId w) = Ok tt /\
  history (snd (cancelSubscriptionForOrderLine E ctx orderLineId w))
  = history w ++ map (fun s => failedEntry order s e) ids /\
  exists tr,
    calls_of (cancelSubscriptionForOrderLine E ctx orderLineId) w tr /\
    filter isSubscriptionsUpdate tr = map (StripeSubscriptionsUpdate sc) ids.
Proof.
  intros Hrest Hreject Horder Hline Hids Hne Hpm Hcred. unfold calls_of.
  rewrite (cancelSubscriptionForOrderLine_loop E ctx orderLineId w order line ids
             pm sc) by (auto; intros; apply Hrest; reflexivity).
  clear Hids Hne Horder Hline.
  match goal with
  | |- context [forOf ids ?f ?w0] =>
      assert (Hloop : forall w1,
                exists tr w',
                  forOf ids f w1 = (Ok tt, w') /\
                  history w' = history w1 ++ map (fun s => failedEntry order s e) ids /\
                  trace w' = trace w1 ++ tr /\
                  filter isSubscriptionsUpdate tr
                  = map (StripeSubscriptionsUpdate sc) ids);
      [| destruct (Hloop w0) as (tr & w' & Hrun & Hhist & Htr & Hf) ]
  end.
  { induction ids as [|s rest IH]; intros w1.
    - exists [], w1. cbn. rewrite !app_nil_r. auto.
    - destruct (cancelOne_misreported E ctx order sc s e w1 Hrest Hreject)
        as (w2 & Hone & Hh & Ht).
      destruct (IH w2) as (tr & w' & Hrun & Hhist & Htr & Hf).
      eexists. exists w'. cbn [forOf]. unfold bind. rewrite Hone, Hrun.
      split; [reflexivity|].
      split; [rewrite Hhist, Hh, <- app_assoc; reflexivity|].
      split; [rewrite Htr, Ht, <- app_assoc; reflexivity|].
      cbn. rewrite Hf. reflexivity. }
  rewrite Hrun. cbn [fst snd]. split; [reflexivity|].
  split; [exact Hhist|].
  cbn_world in Htr. rewrite <- !app_assoc in Htr. cbn [app] in Htr.
  eexists. split; [exact Htr|]. cbn. exact Hf.
Qed.

Lemma cancelSubscriptionForOrderLine_rejected_success_audit_witness :
  map h_valid
    (history
       (snd (cancelSubscriptionForOrderLine Sample.env_rejecting_success_audit
               Sample.ctx "5"
               (Sample.world [Sample.stripeMethod]
              [Sample.order 100
                 [Sample.line "5" (Some ["sub_A"; "sub_B"]%string)] None []]))))
  = [false; false].
Proof.
  assert (Hrest : forall tr c,
             isValidAudit c = false ->
             fault Sample.env_rejecting_success_audit tr c = None).
  { intros tr c Hc. destruct c; try reflexivity.
    cbn in Hc |- *. rewrite Hc. reflexivity. }
  assert (Hreject : forall tr h,
             h_valid h = true ->
             fault Sample.env_rejecting_success_audit tr
               (CreateHistoryEntryForOrder h)
             = Some (ForeignError "QueryFailedError" "history is read-only")).
  { intros tr h Hh. cbn. rewrite Hh. reflexivity. }
  destruct (cancelSubscriptionForOrderLine_rejected_success_audit
              Sample.env_rejecting_success_audit Sample.ctx "5"
              (Sample.world [Sample.stripeMethod]
              [Sample.order 100
                 [Sample.line "5" (Some ["sub_A"; "sub_B"]%string)] None []])
              (Sample.order 100
                 [Sample.line "5" (Some ["sub_A"; "sub_B"]%string)] None [])
              (Sample.line "5" (Some ["sub_A"; "sub_B"]%string))
              ["sub_A"; "sub_B"]%string
              (ForeignError "QueryFailedError" "history is read-only")
              Sample.stripeMethod
              {| webhookSecret := "whsec_1"; apiKey := "sk_test_1" |}
              Hrest Hreject eq_refl eq_refl eq_refl ltac:(discriminate)
              eq_refl eq_refl)
    as (_ & Hhist & _).
  rewrite Hhist. reflexivity.
Defined.

(* ================================================================== *)
(** ** More on the queue callback *)
(* ================================================================== *)

Lemma handled_app (a b : list Call) : handled a -> handled b -> handled (a ++ b).
Proof. unfold handled. intros Ha Hb. rewrite forallb_app, Ha, Hb. reflexivity. Qed.

(** Whatever the collaborators answer, one turn of the loop leaves the
    orders and the queue alone, and every rejection in it is handled or
    thrown to the caller. *)
Lemma cancelOne_frame
  (E : Env) (ctx : RequestContext) (order : Order) (sc : StripeClient)
  (s : string) (w : World) :
  orders (snd (cancelOne E ctx order sc s w)) = orders w /\
  jobs (snd (cancelOne E ctx order sc s w)) = jobs w /\
  exists tr, calls_of (cancelOne E ctx order sc s) w tr /\ handled tr.
Proof.
  unfold calls_of, handled.
  destruct (cancelOne E ctx order sc s w) as [out w'] eqn:Hrun.
  cbn [fst snd]. unfold cancelOne in Hrun. unfold_service_in Hrun.
  run_in Hrun.
  all: injection Hrun as <- <-; cbn_world; rewrite <- ?app_assoc; cbn [app].
  all: repeat split; auto; eexists; split; [reflexivity|reflexivity].
Qed.

Lemma forOf_cancelOne_frame
  (E : Env) (ctx : RequestContext) (order : Order) (sc : StripeClient)
  (ids : list string) :
  forall w,
  orders (snd (forOf ids (cancelOne E ctx order sc) w)) = orders w /\
  jobs (snd (forOf ids (cancelOne E ctx order sc) w)) = jobs w /\
  exists tr, calls_of (forOf ids (cancelOne E ctx order sc)) w tr /\ handled tr.
Proof.
  unfold calls_of.
  induction ids as [|s rest IH]; intros w.
  - cbn. repeat split; auto. exists []. rewrite app_nil_r. split; reflexivity.
  - cbn [forOf]. unfold bind.
    destruct (cancelOne_frame E ctx order sc s w) as (Ho & Hj & tr & Ht & Hh).
    unfold calls_of in Ht.
    destruct (cancelOne E ctx order sc s w) as [[u|e] w1]; cbn [fst snd] in *.
    + destruct (IH w1) as (Ho' & Hj' & tr' & Ht' & Hh').
      rewrite Ho', Hj', Ht', Ho, Hj, Ht, <- app_assoc.
      repeat split; auto. exists (tr ++ tr'). split; [reflexivity|].
      apply handled_app; assumption.
    + repeat split; auto. exists tr. split; assumption.
Qed.

(** Whatever the collaborators answer, [cancelSubscriptionForOrderLine]
    leaves the orders and the queue alone, and every rejection in it is
    handled or thrown to the caller. *)
Lemma cancelSubscriptionForOrderLine_frame
  (E : Env) (ctx : RequestContext) (orderLineId : ID) (w : World) :
  orders (snd (cancelSubscriptionForOrderLine E ctx orderLineId w)) = orders w /\
  jobs (snd (cancelSubscriptionForOrderLine E ctx orderLineId w)) = jobs w /\
  exists tr,
    calls_of (cancelSubscriptionForOrderLine E ctx orderLineId) w tr /\ handled tr.
Proof.
  unfold calls_of.
  destruct (cancelSubscriptionForOrderLine E ctx orderLineId w) as [out w']
    eqn:Hrun.
  cbn [fst snd].
  unfold cancelSubscriptionForOrderLine in Hrun.
  unfold orderService_findOneByOrderLineId, entityHydrator_hydrate,
    request, gets in Hrun.
  unfold bind at 1 2 in Hrun.
  destruct (fault E (trace w) _) as [e|]; cbn [fst snd] in Hrun.
  { injection Hrun as <- <-. cbn_world. repeat split; auto.
    eexists. split; reflexivity. }
  change (orderOfLine orderLineId (add_call ?c w))
    with (orderOfLine orderLineId w) in Hrun.
  destruct (orderOfLine orderLineId w) as [order|].
  2:{ injection Hrun as <- <-. cbn_world. repeat split; auto.
      eexists. split; reflexivity. }
  cbn zeta in Hrun.
  destruct (idsOf (lineOf orderLineId order)) as [|s rest].
  { injection Hrun as <- <-. cbn_world. repeat split; auto.
    eexists. split; reflexivity. }
  unfold bind at 1 in Hrun.
  destruct (fault E _ (Hydrate _ _)) as [e|]; cbn [fst snd] in Hrun.
  { injection Hrun as <- <-. cbn_world. rewrite <- app_assoc.
    repeat split; auto. eexists. split; reflexivity. }
  unfold bind at 1 in Hrun.
  match type of Hrun with
  | context [getStripeContext E ctx ?w1] =>
      pose proof (getStripeContext_frame E ctx w1) as (Ht & Ho & _ & Hj & _);
      destruct (getStripeContext E ctx w1) as [[sc|e] w2]; cbn [fst snd] in *
  end.
  - destruct (forOf_cancelOne_frame E ctx order (stripeClient sc) (s :: rest) w2)
      as (Ho' & Hj' & tr & Ht' & Hh).
    unfold calls_of in Ht'. rewrite Hrun in Ho', Hj', Ht'. cbn [fst snd] in *.
    rewrite Ho', Hj', Ht', Ho, Hj, Ht. cbn_world. rewrite <- !app_assoc.
    cbn [app]. repeat split; auto. eexists. split; [reflexivity|].
    unfold handled in *. cbn. exact Hh.
  - injection Hrun as <- <-. rewrite Ho, Hj, Ht. cbn_world.
    rewrite <- !app_assoc. cbn [app]. repeat split; auto.
    eexists. split; reflexivity.
Qed.

(** X14.  The queue callback starts the cancellation of a line's
    subscriptions without awaiting it and without a handler.  So processing
    a cancellation job returns normally whatever the collaborators answer
    and whatever happens to the cancellation; it leaves the stored orders
    and the queue as they were, and the history as the cancellation left
    it.  The cancellation itself reports no unhandled rejection.  When it
    returns, the calls of the job are its calls; when it throws, the error
    does not reach the queue: it is reported to the runtime as an unhandled
    rejection, after the calls of the cancellation.  So for a line that
    belongs to no order, the job returns normally, writes no audit entry,
    and its calls are the lookup followed by the unhandled report of
    "Order for OrderLine ... not found". *)
Theorem process_cancel_job_never_throws
  (E : Env) (sctx : SerializedRequestContext) (orderLineId : ID) (id : ID)
  (w : World) :
  let cancel := cancelSubscriptionForOrderLine E (deserialize sctx) orderLineId in
  let run := process E (CancelSubscriptionsJob sctx orderLineId) id w in
  fst run = Ok tt /\
  orders (snd run) = orders w /\
  jobs (snd run) = jobs w /\
  history (snd run) = history (snd (cancel w)) /\
  (exists tr,
     calls_of cancel w tr /\
     handled tr /\
     calls_of (process E (CancelSubscriptionsJob sctx orderLineId) id) w
       (tr ++ match fst (cancel w) with
              | Ok _ => []
              | Throw e => [UnhandledRejection e]
              end)) /\
  (fault E (trace w) (FindOneByOrderLineId orderLineId ["lines"%string]) = None ->
   orderOfLine orderLineId w = None ->
   history (snd run) = history w /\
   calls_of (process E (CancelSubscriptionsJob sctx orderLineId) id) w
     [ FindOneByOrderLineId orderLineId ["lines"%string];
       UnhandledRejection
         (Error ("Order for OrderLine " ++ orderLineId ++ " not found")%string) ]).
Proof.
  cbn zeta.
  destruct (cancelSubscriptionForOrderLine_frame E (deserialize sctx) orderLineId w)
    as (Ho & Hj & tr & Ht & Hh).
  unfold calls_of in *. unfold process, floating. cbn [job_ctx].
  split; [|split; [|split; [|split; [|split]]]].
  1-5: destruct (cancelSubscriptionForOrderLine E (deserialize sctx) orderLineId w)
         as [[u|e] w']; cbn [fst snd] in *; cbn_world; auto.
  - exists tr. rewrite app_nil_r. auto.
  - exists tr. rewrite Ht, <- app_assoc. auto.
  - intros Hq Hnone.
    unfold cancelSubscriptionForOrderLine.
    unfold orderService_findOneByOrderLineId, request, gets, bind.
    rewrite Hq.
    change (orderOfLine orderLineId (add_call ?c w)) with (orderOfLine orderLineId w).
    rewrite Hnone. cbn. rewrite <- app_assoc. auto.
Qed.

Lemma process_cancel_job_never_throws_witness :
  let run :=
    process Sample.env (CancelSubscriptionsJob Sample.ctx "5") "job-1"
      (Sample.world [Sample.stripeMethod] []) in
  fst run = Ok tt /\
  trace (snd run)
  = [ FindOneByOrderLineId "5" ["lines"%string];
      UnhandledRejection (Error "Order for OrderLine 5 not found") ].
Proof.
  cbn zeta.
  destruct (process_cancel_job_never_throws Sample.env Sample.ctx "5" "job-1"
              (Sample.world [Sample.stripeMethod] []))
    as (Hret & _ & _ & _ & _ & Hnone).
  split; [exact Hret|].
  exact (proj2 (Hnone eq_refl eq_refl)).
Defined.

(** X15.  While [createSubscriptions] is a stub, processing a creation job
    only looks the order up and, on failure, writes an audit entry: whatever
    the collaborators answer, it makes no other call (none to the provider),
    and leaves the stored orders and the queue as they were; when it
    returns normally the order exists and the history is unchanged. *)
Theorem process_create_job_inert
  (E : Env) (sctx : SerializedRequestContext)
  (orderCode stripeCustomerId stripePaymentMethodId : string) (id : ID)
  (w : World) :
  let data :=
    CreateSubscriptionsJob sctx orderCode stripeCustomerId stripePaymentMethodId in
  exists tr,
    calls_of (process E data id) w tr /\
    forallb isLookupOrAudit tr = true /\
    orders (snd (process E data id w)) = orders w /\
    jobs (snd (process E data id w)) = jobs w /\
    (fst (process E data id w) = Ok tt ->
     history (snd (process E data id w)) = history w /\
     orderByCode orderCode w <> None).
Proof.
  cbn zeta. unfold calls_of.
  destruct (process E _ id w) as [out w'] eqn:Hrun.
  cbn [fst snd].
  unfold process, createSubscriptions in Hrun. unfold_service_in Hrun.
  run_in Hrun.
  all: injection Hrun as <- <-.
  all: cbn_world; rewrite <- ?app_assoc; cbn [app].
  all: eexists; (split; [reflexivity|]).
  all: repeat split; auto; try discriminate.
  all: match goal with
       | H : orderByCode _ _ = Some _ |- _ <> None =>
           cbn in H; unfold orderByCode in *; cbn_world in H; congruence
       end.
Qed.

(* ================================================================== *)
(** ** More on stock movements *)
(* ================================================================== *)

Lemma jobQueue_add_run (E : Env) (d : JobData) (r : option nat) (w : World) :
  jobQueue_add E d r w
  = match fault E (trace w) (JobQueueAdd d r) with
    | Some e => (Throw e, add_call (JobQueueAdd d r) w)
    | None => (Ok tt, add_job {| q_data := d; q_retries := r |}
                        (add_call (JobQueueAdd d r) w))
    end.
Proof.
  unfold jobQueue_add, request, modify, bind.
  destruct (fault E (trace w) _); reflexivity.
Qed.

Lemma promiseAllMap_requests (E : Env) (event : StockMovementEvent)
  (ms : list StockMovement) :
  forall w out w',
  promiseAllMap ms
    (fun line =>
       jobQueue_add E
         (CancelSubscriptionsJob (serialize (sme_ctx event)) (sm_id line)) None)
    w = (out, w') ->
  trace w' = trace w ++ map (cancellationRequest event) ms /\
  (exists added,
     jobs w' = jobs w ++ added /\
     incl added (map (cancellationJob event) ms)) /\
  history w' = history w /\ orders w' = orders w.
Proof.
  induction ms as [|m ms IH]; intros w out w' Hrun.
  - injection Hrun as <- <-. cbn. rewrite app_nil_r. repeat split; auto.
    exists []. rewrite app_nil_r. split; [reflexivity|]. intros x [].
  - cbn [promiseAllMap map] in Hrun. rewrite jobQueue_add_run in Hrun.
    destruct (fault E (trace w) _) as [e|].
    + destruct (promiseAllMap ms _ _) as [o w2] eqn:Hrest.
      cbn [snd] in Hrun. injection Hrun as <- <-.
      destruct (IH _ _ _ Hrest) as (Htr & (added & Hjobs & Hincl) & Hhist & Hord).
      rewrite Htr, Hjobs, Hhist, Hord. cbn_world.
      rewrite <- app_assoc. repeat split; auto.
      exists added. split; [reflexivity|].
      intros x Hx. right. apply Hincl. exact Hx.
    + destruct (IH _ _ _ Hrun) as (Htr & (added & Hjobs & Hincl) & Hhist & Hord).
      rewrite Htr, Hjobs, Hhist, Hord. cbn_world.
      rewrite <- !app_assoc. repeat split; auto.
      exists (cancellationJob event m :: added). split; [reflexivity|].
      intros x [<- | Hx]; [left; reflexivity | right; apply Hincl; exact Hx].
Qed.

(** X17.  Whatever the queue answers: on a release or a cancellation the
    subscriber asks the queue once for every movement that passes its
    filter, in order, also after a rejection; on any other type it
    makes no call.  The jobs it adds are among those requested, and the
    history and the stored orders are untouched. *)
Theorem onStockMovementEvent_requests
  (E : Env) (event : StockMovementEvent) (w : World) :
  calls_of (onStockMovementEvent E event) w
    match sme_type event with
    | RELEASE | CANCELLATION =>
        map (cancellationRequest event) (passingMovements event)
    | _ => []
    end /\
  (exists added,
     jobs (snd (onStockMovementEvent E event w)) = jobs w ++ added /\
     incl added (map (cancellationJob event) (passingMovements event))) /\
  history (snd (onStockMovementEvent E event w)) = history w /\
  orders (snd (onStockMovementEvent E event w)) = orders w.
Proof.
  unfold calls_of.
  destruct (onStockMovementEvent E event w) as [out w'] eqn:Hrun.
  cbn [snd]. unfold onStockMovementEvent in Hrun.
  destruct (sme_type event); cbn zeta in Hrun;
    try (injection Hrun as <- <-; rewrite app_nil_r; repeat split; auto;
         exists []; rewrite app_nil_r; split; [reflexivity | intros x []]);
    apply (promiseAllMap_requests E event (passingMovements event) w out w' Hrun).
Qed.

(* ================================================================== *)
(** ** Audit entries *)
(* ================================================================== *)

(** X18.  [logHistoryEntry] writes one entry or, when the history service
    rejects it, none; it never touches orders or jobs.  The entry carries
    the given order id, message and subscription id, and the pricing with
    its money fields printed; it is valid exactly when it carries no error
    snapshot, an invalid entry carries the given error, and an empty string
    given as error counts as no error. *)
Theorem logHistoryEntry_entry
  (E : Env) (ctx : RequestContext) (orderId : ID) (message : string)
  (error : option ErrorValue) (pricing : option StripeSubscriptionPricing)
  (subscriptionId : option string) (w : World) :
  let run := logHistoryEntry E ctx orderId message error pricing subscriptionId w in
  orders (snd run) = orders w /\ jobs (snd run) = jobs w /\
  (forall e, fst run = Throw e -> history (snd run) = history w) /\
  (fst run = Ok tt ->
   exists h,
     history (snd run) = history w ++ [h] /\
     calls_of (logHistoryEntry E ctx orderId message error pricing subscriptionId)
       w [CreateHistoryEntryForOrder h] /\
     h_orderId h = orderId /\ h_message h = message /\
     h_subscriptionId h = subscriptionId /\
     h_pricing h = option_map (prettify E) pricing /\
     (h_valid h = true <-> h_error h = None) /\
     (h_valid h = false -> h_error h = error) /\
     (error = Some (ErrString "") -> h_valid h = true)).
Proof.
  cbn zeta. unfold calls_of.
  destruct (logHistoryEntry E ctx orderId message error pricing subscriptionId w)
    as [out w'] eqn:Hrun.
  cbn [fst snd].
  unfold logHistoryEntry in Hrun. unfold_service_in Hrun.
  destruct (fault E (trace w) _) as [e0|]; cbn [fst snd] in Hrun;
    injection Hrun as <- <-; cbn_world.
  - repeat split; auto. discriminate.
  - repeat split; auto; try discriminate.
    intros _. eexists. split; [reflexivity|]. split; [reflexivity|].
    cbn [h_orderId h_message h_subscriptionId h_pricing h_valid h_error].
    repeat split; auto.
    + destruct error as [v|]; [|reflexivity].
      destruct (errorValue_truthy v); [discriminate|reflexivity].
    + destruct error as [v|]; [|reflexivity].
      destruct (errorValue_truthy v); [discriminate|reflexivity].
    + destruct error as [v|]; [|discriminate].
      destruct (errorValue_truthy v); [reflexivity|discriminate].
    + intros ->. reflexivity.
Qed.

(** X19.  [handleInvoicePaymentFailed] writes one audit entry against the
    order (or none, when the history service rejects it) and touches
    neither orders nor jobs.  The entry is never valid; it names the
    invoice's subscription; its error is its message followed by the
    invoice id; and its message names the printed amount of the plan of the
    invoice's first line when that amount is present and not zero, and is
    the generic "Subscription payment failed" when the invoice has no
    lines, no plan, or a zero amount. *)
Theorem handleInvoicePaymentFailed_entry
  (E : Env) (ctx : RequestContext) (object : StripeInvoice) (order : Order)
  (w : World) :
  let run := handleInvoicePaymentFailed E ctx object order w in
  orders (snd run) = orders w /\ jobs (snd run) = jobs w /\
  (forall e, fst run = Throw e -> history (snd run) = history w) /\
  (fst run = Ok tt ->
   exists h,
     history (snd run) = history w ++ [h] /\
     calls_of (handleInvoicePaymentFailed E ctx object order) w
       [CreateHistoryEntryForOrder h] /\
     h_orderId h = o_id order /\
     h_valid h = false /\
     h_error h = Some (ErrString (h_message h ++ " - " ++ inv_id object)%string) /\
     h_subscriptionId h = Some (inv_subscription object) /\
     h_pricing h = None /\
     h_message h
     = match firstPlanAmount object with
       | Some a =>
           if Z.eqb a 0 then genericFailure
           else ("Subscription payment of " ++ printMoney E a ++ " failed")%string
       | None => genericFailure
       end).
Proof.
  cbn zeta. unfold calls_of.
  destruct (handleInvoicePaymentFailed E ctx object order w) as [out w'] eqn:Hrun.
  cbn [fst snd].
  unfold handleInvoicePaymentFailed in Hrun.
  set (message := match firstPlanAmount object with
                  | Some a => if Z.eqb a 0 then _ else _
                  | None => _
                  end) in *.
  assert (Htruthy : truthy (message ++ " - " ++ inv_id object)%string = true).
  { subst message. destruct (firstPlanAmount object) as [a|];
      [destruct (Z.eqb a 0)|]; reflexivity. }
  unfold logHistoryEntry in Hrun. cbn [errorValue_truthy] in Hrun.
  rewrite Htruthy in Hrun. unfold_service_in Hrun.
  destruct (fault E (trace w) _) as [e0|]; cbn [fst snd] in Hrun;
    injection Hrun as <- <-; cbn_world.
  - repeat split; auto. discriminate.
  - repeat split; auto; try discriminate.
    intros _. eexists. split; [reflexivity|]. split; [reflexivity|].
    cbn. auto 10.
Qed.

(* ================================================================== *)
(** ** More on provider-context resolution *)
(* ================================================================== *)

Lemma filter_filter_both {A} (f g : A -> bool) (l : list A) :
  filter g (filter f l) = filter (fun x => f x && g x) l.
Proof.
  induction l as [|x l IH]; cbn; [reflexivity|].
  destruct (f x); cbn; [destruct (g x)|]; now rewrite IH.
Qed.

Lemma filter_insert_rejected {A} (f : A -> bool) (l1 l2 : list A) (x : A) :
  f x = false -> filter f (l1 ++ x :: l2) = filter f (l1 ++ l2).
Proof.
  intros Hx. rewrite !filter_app. cbn. now rewrite Hx.
Qed.

(** X20.  Resolution looks only at the enabled stripe-subscription methods
    of the channel: a payment method that is disabled, not assigned to the
    channel, or bound to another handler can be inserted anywhere among the
    stored methods without changing the outcome of [getStripeContext]. *)
Theorem getStripeContext_ignores_other_methods
  (E : Env) (ctx : RequestContext) (w : World) (pm : PaymentMethod)
  (before after : list PaymentMethod) :
  paymentMethods w = before ++ after ->
  pm_enabled pm = false \/
  existsb (String.eqb (token (channel ctx))) (pm_channels pm) = false \/
  String.eqb (handler_code (pm_handler pm)) (stripeSubscriptionHandler_code E)
  = false ->
  fst (getStripeContext E ctx (set_paymentMethods (before ++ pm :: after) w))
  = fst (getStripeContext E ctx w).
Proof.
  intros Hw Hother.
  assert (Hsame :
    enabledStripeMethods E ctx (set_paymentMethods (before ++ pm :: after) w)
    = enabledStripeMethods E ctx w).
  { unfold enabledStripeMethods, enabledMethods.
    cbn [paymentMethods set_paymentMethods].
    rewrite Hw, !filter_filter_both.
    apply filter_insert_rejected.
    destruct Hother as [H | [H | H]]; rewrite H;
      rewrite ?andb_false_r; reflexivity. }
  unfold getStripeContext, paymentMethodService_findAll, request, gets, bind.
  change (trace (set_paymentMethods (before ++ pm :: after) w)) with (trace w).
  destruct (fault E (trace w) _); [reflexivity|].
  change (enabledMethods ctx (add_call ?c (set_paymentMethods ?l w)))
    with (enabledMethods ctx (set_paymentMethods l w)).
  change (enabledMethods ctx (add_call ?c w)) with (enabledMethods ctx w).
  fold (enabledStripeMethods E ctx (set_paymentMethods (before ++ pm :: after) w)).
  fold (enabledStripeMethods E ctx w).
  rewrite Hsame.
  destruct (1 <? length (enabledStripeMethods E ctx w)); [reflexivity|].
  destruct (nth_error (enabledStripeMethods E ctx w) 0) as [p|]; [|reflexivity].
  destruct (find_arg "apiKey" _) as [k|];
    [destruct (find_arg "webhookSecret" _) as [s|]|]; try reflexivity.
  destruct (negb (truthy k) || negb (truthy s)); reflexivity.
Qed.

Lemma getStripeContext_ignores_other_methods_witness :
  fst (getStripeContext Sample.env Sample.ctx
         (set_paymentMethods [Sample.disabledMethod; Sample.stripeMethod]
            (Sample.world [Sample.stripeMethod] [])))
  = fst (getStripeContext Sample.env Sample.ctx
           (Sample.world [Sample.stripeMethod] [])).
Proof.
  exact (getStripeContext_ignores_other_methods Sample.env Sample.ctx
           (Sample.world [Sample.stripeMethod] []) Sample.disabledMethod
           [] [Sample.stripeMethod] eq_refl (or_introl eq_refl)).
Defined.

(** X21.  [getSubscription] and [getAllSubscriptions] resolve the provider
    context first.  With no or several enabled stripe-subscription methods
    they throw the user-input error of the resolution and the SDK method is
    not run; with exactly one, configured, they are the SDK method run with
    the client of that method. *)
Theorem subscription_proxies_resolve_first
  {R P O} (E : Env)
  (subscriptions_retrieve : StripeClient -> string -> M R)
  (subscriptions_list : StripeClient -> P -> O -> M R)
  (ctx : RequestContext) (subscriptionId : string) (params : P) (options : O)
  (w : World) :
  fault E (trace w) (PaymentMethodFindAll (token (channel ctx))) = None ->
  let w1 := add_call (PaymentMethodFindAll (token (channel ctx))) w in
  (length (enabledStripeMethods E ctx w) <> 1 ->
   exists msg,
     getSubscription E subscriptions_retrieve ctx subscriptionId w
     = (Throw (UserInputError msg), w1) /\
     getAllSubscriptions E subscriptions_list ctx params options w
     = (Throw (UserInputError msg), w1)) /\
  (forall pm sc,
     enabledStripeMethods E ctx w = [pm] ->
     credentials pm = Some sc ->
     getSubscription E subscriptions_retrieve ctx subscriptionId w
     = subscriptions_retrieve sc subscriptionId w1 /\
     getAllSubscriptions E subscriptions_list ctx params options w
     = subscriptions_list sc params options w1).
Proof.
  intros Hq. cbn zeta.
  pose proof (getStripeContext_cases E ctx w Hq) as Hc.
  unfold getSubscription, getAllSubscriptions, bind.
  split.
  - intros Hlen.
    destruct (enabledStripeMethods E ctx w) as [|pm [|pm' rest]].
    + rewrite Hc. eauto.
    + cbn in Hlen. congruence.
    + rewrite Hc. eauto.
  - intros pm sc Hone Hcred. rewrite Hone, Hcred in Hc. rewrite Hc. auto.
Qed.

Lemma subscription_proxies_resolve_first_witness :
  getSubscription Sample.env (fun _ _ => ret tt) Sample.ctx "sub_A"
    (Sample.world [Sample.stripeMethod] [])
  = (Ok tt,
     add_call (PaymentMethodFindAll "default-channel")
       (Sample.world [Sample.stripeMethod] [])).
Proof.
  destruct (subscription_proxies_resolve_first (R := unit) (P := unit) (O := unit)
              Sample.env (fun _ _ => ret tt) (fun _ _ _ => ret tt)
              Sample.ctx "sub_A" tt tt
              (Sample.world [Sample.stripeMethod] []) eq_refl) as [_ H].
  exact (proj1 (H Sample.stripeMethod {| webhookSecret := "whsec_1"; apiKey := "sk_test_1" |} eq_refl eq_refl)).
Defined.

(* ================================================================== *)
(** ** More on the correlation hash *)
(* ================================================================== *)

(** The run of the subscriber on a created subscription line. *)
Lemma onOrderLineEvent_created_run
  (E : Env) (ctx : RequestContext) (line : OrderLine) (w : World) :
  isSubscription E ctx line = true ->
  fault E (trace w) (OrderLineUpdate (ol_id line) (randomUUID E (drawn w))) = None ->
  onOrderLineEvent E
    {| ole_ctx := ctx; ole_type := created; ole_orderLine := line |} w
  = (Ok tt,
     set_orders (update_line_hash (ol_id line) (randomUUID E (drawn w)))
       (add_call (OrderLineUpdate (ol_id line) (randomUUID E (drawn w)))
          (add_drawn w))).
Proof.
  intros Hsub Hq. unfold onOrderLineEvent. cbn [ole_type ole_ctx ole_orderLine].
  rewrite Hsub. cbn [andb].
  unfold crypto_randomUUID, orderLineRepository_update, request, modify, bind.
  cbn [trace add_drawn]. rewrite Hq. reflexivity.
Qed.

(** X22.  With a random source that never repeats and a repository that
    accepts the updates: after the [created] events of two subscription
    lines with different ids, handled one after the other, every stored
    line with the first id has the first identifier drawn as its hash, every
    stored line with the second id has the next one, and the two hashes
    differ. *)
Theorem onOrderLineEvent_distinct_hashes
  (E : Env) (ctx1 ctx2 : RequestContext) (line1 line2 : OrderLine) (w : World) :
  (forall m n, randomUUID E m = randomUUID E n -> m = n) ->
  (forall tr i h, fault E tr (OrderLineUpdate i h) = None) ->
  isSubscription E ctx1 line1 = true ->
  isSubscription E ctx2 line2 = true ->
  ol_id line1 <> ol_id line2 ->
  let first := {| ole_ctx := ctx1; ole_type := created; ole_orderLine := line1 |} in
  let second := {| ole_ctx := ctx2; ole_type := created; ole_orderLine := line2 |} in
  let w2 := snd (onOrderLineEvent E second (snd (onOrderLineEvent E first w))) in
  forall l1 l2,
    In l1 (stored_lines w2) -> In l2 (stored_lines w2) ->
    ol_id l1 = ol_id line1 -> ol_id l2 = ol_id line2 ->
    subscriptionHash l1 = Some (randomUUID E (drawn w)) /\
    subscriptionHash l2 = Some (randomUUID E (S (drawn w))) /\
    subscriptionHash l1 <> subscriptionHash l2.
Proof.
  intros Hinj Hupd Hsub1 Hsub2 Hne. cbn zeta.
  rewrite (onOrderLineEvent_created_run E ctx1 line1 w Hsub1 (Hupd _ _ _)).
  cbn [snd].
  rewrite (onOrderLineEvent_created_run E ctx2 line2 _ Hsub2 (Hupd _ _ _)).
  cbn [snd]. unfold stored_lines. cbn_world.
  rewrite !stored_lines_update_line_hash.
  intros l1 l2 Hin1 Hin2 Hid1 Hid2.
  apply in_map_iff in Hin1 as (a1 & <- & Hin1).
  apply in_map_iff in Hin1 as (b1 & <- & _).
  apply in_map_iff in Hin2 as (a2 & <- & Hin2).
  apply in_map_iff in Hin2 as (b2 & <- & _).
  assert (Hfacts :
    forall b,
      let a := if id_eqb (ol_id b) (ol_id line1)
               then with_hash (randomUUID E (drawn w)) b else b in
      let l := if id_eqb (ol_id a) (ol_id line2)
               then with_hash (randomUUID E (S (drawn w))) a else a in
      ol_id l = ol_id b /\
      (ol_id b = ol_id line1 -> subscriptionHash l = Some (randomUUID E (drawn w))) /\
      (ol_id b = ol_id line2 ->
       subscriptionHash l = Some (randomUUID E (S (drawn w))))).
  { intros b. cbn zeta.
    destruct (id_eqb (ol_id b) (ol_id line1)) eqn:H1;
      cbn [ol_id with_hash];
      destruct (id_eqb (ol_id b) (ol_id line2)) eqn:H2;
      cbn [ol_id with_hash subscriptionHash];
      repeat split; auto; intros Hb;
      try (apply id_eqb_eq in H1); try (apply id_eqb_eq in H2);
      try congruence;
      unfold id_eqb in *; rewrite Hb, String.eqb_refl in *; discriminate. }
  destruct (Hfacts b1) as (Hi1 & Hh1 & _).
  destruct (Hfacts b2) as (Hi2 & _ & Hh2).
  cbn zeta in *. rewrite Hi1 in Hid1. rewrite Hi2 in Hid2.
  rewrite (Hh1 Hid1), (Hh2 Hid2).
  repeat split. intros [= Heq]. apply Hinj in Heq.
  exact (Nat.neq_succ_diag_r _ Heq).
Qed.

Lemma onOrderLineEvent_distinct_hashes_witness :
  subscriptionHash (with_hash "u" (Sample.line "5" None))
  <> subscriptionHash (with_hash "iu" (Sample.line "6" None)).
Proof.
  assert (H1 :
    In (with_hash "u" (Sample.line "5" None))
       (stored_lines
          (snd (onOrderLineEvent Sample.env
                  {| ole_ctx := Sample.ctx; ole_type := created;
                     ole_orderLine := Sample.line "6" None |}
                  (snd (onOrderLineEvent Sample.env
                          {| ole_ctx := Sample.ctx; ole_type := created;
                             ole_orderLine := Sample.line "5" None |}
                          (Sample.world []
                             [Sample.order 100
                                [Sample.line "5" None; Sample.line "6" None]
                                None []]))))))).
  { left. reflexivity. }
  assert (H2 :
    In (with_hash "iu" (Sample.line "6" None))
       (stored_lines
          (snd (onOrderLineEvent Sample.env
                  {| ole_ctx := Sample.ctx; ole_type := created;
                     ole_orderLine := Sample.line "6" None |}
                  (snd (onOrderLineEvent Sample.env
                          {| ole_ctx := Sample.ctx; ole_type := created;
                             ole_orderLine := Sample.line "5" None |}
                          (Sample.world []
                             [Sample.order 100
                                [Sample.line "5" None; Sample.line "6" None]
                                None []]))))))).
  { right. left. reflexivity. }
  exact (proj2 (proj2
           (onOrderLineEvent_distinct_hashes Sample.env Sample.ctx Sample.ctx
              (Sample.line "5" None) (Sample.line "6" None)
              (Sample.world []
                 [Sample.order 100 [Sample.line "5" None; Sample.line "6" None]
                    None []])
              tally_injective (fun _ _ _ => eq_refl) eq_refl eq_refl
              ltac:(discriminate) _ _ H1 H2 eq_refl eq_refl))).
Defined.

(** X23.  [hasSubscriptionProducts] and the order-line subscriber use the
    same strategy: an order has subscription products exactly when it has
    a line for which the subscriber, on the line's [created] event, asks the
    repository to store a hash. *)

Theorem hasSubscriptionProducts_iff_hashed
  (E : Env) (ctx : RequestContext) (order : Order) :
  hasSubscriptionProducts E ctx order = true <->
  exists l,
    In l (lines order) /\
    forall w,
      calls_of
        (onOrderLineEvent E
           {| ole_ctx := ctx; ole_type := created; ole_orderLine := l |})
        w [OrderLineUpdate (ol_id l) (randomUUID E (drawn w))].
Proof.
  unfold hasSubscriptionProducts, calls_of. rewrite existsb_exists.
  split; intros (l & Hin & H); exists l; (split; [exact Hin|]).
  - intros w. unfold onOrderLineEvent. cbn [ole_type ole_ctx ole_orderLine].
    rewrite H. cbn [andb].
    unfold crypto_randomUUID, orderLineRepository_update, request, modify, bind.
    cbn [trace add_drawn drawn].
    destruct (fault E _ _); reflexivity.
  - specialize (H {| paymentMethods := []; orders := []; history := [];
                     jobs := []; logs := []; drawn := 0; trace := [] |}).
    unfold onOrderLineEvent in H. cbn [ole_type ole_ctx ole_orderLine] in H.
    destruct (isSubscription E ctx l); [reflexivity|]. discriminate H.
Qed.
